(** * EAN-13 sequence generator

    A shallow embedding of the three revisions of the [EanGenerator]
    component (React/TypeScript) and of the JavaScript built-ins they call.

    - [Prefixed]: src/components/EanGenerator.tsx, the base code is
      prefix ++ 5 CNPJ digits ++ 4-digit sequential tail, cursor in
      localStorage;
    - [FreeBase]: the revision with one free 12-digit base code typed by
      the user, cursor in localStorage;
    - [Saved]: the revision with named bases stored in the remote table
      [saved_ean_bases];
    - [Access], [Admin]: the access gate of the auth provider, the SQL
      predicates behind the row policies, and the admin page's writes.

    JavaScript strings are modelled as [string]: every [ascii] stands for
    one UTF-16 code unit below 256.  JavaScript numbers are modelled as
    [number]: [NaN] or an exact integer, which is what the double type
    gives for every integer of magnitude below 2^53; no fraction and no
    infinity arises in the modelled code. *)

From Stdlib Require Import ZArith List String Ascii Bool Lia.
Import ListNotations.

Local Open Scope string_scope.
Local Open Scope Z_scope.

(** ** JavaScript built-ins *)

Module JS.

Inductive number : Type :=
| NaN : number
| Num (z : Z) : number.

Definition isNaN (a : number) : bool :=
  match a with NaN => true | Num _ => false end.

Definition add (a b : number) : number :=
  match a, b with Num x, Num y => Num (x + y) | _, _ => NaN end.

Definition sub (a b : number) : number :=
  match a, b with Num x, Num y => Num (x - y) | _, _ => NaN end.

Definition mul (a b : number) : number :=
  match a, b with Num x, Num y => Num (x * y) | _, _ => NaN end.

(** [a % b]: the remainder takes the sign of the dividend. *)
Definition rem (a b : number) : number :=
  match a, b with
  | Num x, Num y => if y =? 0 then NaN else Num (Z.rem x y)
  | _, _ => NaN
  end.

(** Comparisons with [NaN] are false. *)
Definition lt (a b : number) : bool :=
  match a, b with Num x, Num y => x <? y | _, _ => false end.

Definition gt (a b : number) : bool := lt b a.

(** *** Characters *)

Definition code_unit (c : ascii) : Z := Z.of_N (N_of_ascii c).

Definition is_digit (c : ascii) : bool :=
  (48 <=? code_unit c) && (code_unit c <=? 57).

Definition digit_val (c : ascii) : Z := code_unit c - 48.

Definition digit_char (d : Z) : ascii := ascii_of_N (Z.to_N (48 + d)).

(** WhiteSpace and LineTerminator code units below 256:
    TAB, LF, VT, FF, CR, SP and NBSP. *)
Definition is_white (c : ascii) : bool :=
  let u := code_unit c in
  ((9 <=? u) && (u <=? 13)) || (u =? 32) || (u =? 160).

(** Value of a character as a digit of some radix up to 36. *)
Definition radix_digit (c : ascii) : option Z :=
  let u := code_unit c in
  if (48 <=? u) && (u <=? 57) then Some (u - 48)
  else if (97 <=? u) && (u <=? 122) then Some (u - 87)
  else if (65 <=? u) && (u <=? 90) then Some (u - 55)
  else None.

(** *** Strings *)

(** [s.split('')]: the array of the code units of [s]. *)
Definition split (s : string) : list ascii := list_ascii_of_string s.

(** [Number(c)] for a string [c] of one code unit: white space trims to
    the empty string, whose value is 0. *)
Definition Number (c : ascii) : number :=
  if is_digit c then Num (digit_val c)
  else if is_white c then Num 0
  else NaN.

(** [a[i]] used as a number: reading past the end gives [undefined],
    which converts to [NaN]. *)
Definition index (a : list number) (i : nat) : number :=
  nth i a NaN.

(** [/^\d+$/.test(s)]. *)
Definition all_digits (s : string) : bool :=
  match split s with
  | [] => false
  | cs => forallb is_digit cs
  end.

Fixpoint drop_white (cs : list ascii) : list ascii :=
  match cs with
  | c :: cs' => if is_white c then drop_white cs' else cs
  | [] => []
  end.

(** Longest prefix of radix-[r] digits read from the left, with the
    number of digits consumed. *)
Fixpoint read_digits (r : Z) (cs : list ascii) (acc : Z) (n : nat)
  : Z * nat :=
  match cs with
  | c :: cs' =>
      match radix_digit c with
      | Some d => if d <? r then read_digits r cs' (acc * r + d) (S n)
                  else (acc, n)
      | None => (acc, n)
      end
  | [] => (acc, n)
  end.

Definition parse_radix (r : Z) (cs : list ascii) : number :=
  match read_digits r cs 0 0%nat with
  | (_, O) => NaN
  | (v, S _) => Num v
  end.

Definition strip_hex (cs : list ascii) : option (list ascii) :=
  match cs with
  | "0"%char :: "x"%char :: cs' => Some cs'
  | "0"%char :: "X"%char :: cs' => Some cs'
  | _ => None
  end.

Definition parse_unsigned (cs : list ascii) : number :=
  match strip_hex cs with
  | Some cs' => parse_radix 16 cs'
  | None => parse_radix 10 cs
  end.

(** [parseInt(s)] with no radix argument. *)
Definition parseInt (s : string) : number :=
  match drop_white (split s) with
  | "-"%char :: cs => mul (Num (-1)) (parse_unsigned cs)
  | "+"%char :: cs => parse_unsigned cs
  | cs => parse_unsigned cs
  end.

(** Decimal digits of a non-negative integer, least significant first. *)
Fixpoint digits_le (fuel : nat) (n : Z) : list Z :=
  match fuel with
  | O => []
  | S f => (n mod 10) :: (if n / 10 =? 0 then [] else digits_le f (n / 10))
  end.

Definition decimal (n : Z) : string :=
  string_of_list_ascii
    (rev (map digit_char (digits_le (S (Z.to_nat (Z.log2 n))) n))).

(** [a.toString()]. *)
Definition toString (a : number) : string :=
  match a with
  | NaN => "NaN"
  | Num z => if z <? 0 then "-" ++ decimal (- z) else decimal z
  end.

Fixpoint repeat_char (c : ascii) (n : nat) : string :=
  match n with
  | O => ""
  | S n' => String c (repeat_char c n')
  end.

(** [s.padStart(n, c)] for a filler [c] of one code unit: a string that
    is already long enough comes back as it is. *)
Definition padStart (s : string) (n : nat) (c : ascii) : string :=
  repeat_char c (n - String.length s) ++ s.

(** [s.slice(a, b)] for non-negative indices [a <= b]: the characters
    from position [a] up to, not including, position [b], as far as the
    string has them. *)
Definition slice (s : string) (a b : nat) : string :=
  substring a (b - a) s.

(** [s.startsWith(p)]. *)
Definition startsWith (s p : string) : bool := String.prefix p s.

(** Truthiness of a string: only the empty string is falsy. *)
Definition truthy (s : string) : bool :=
  match s with "" => false | _ => true end.

(** [a.join(sep)]: the elements with [sep] between them; the empty array
    gives the empty string. *)
Fixpoint join (sep : string) (a : list string) : string :=
  match a with
  | [] => ""
  | x :: rest =>
      match rest with
      | [] => x
      | _ :: _ => x ++ sep ++ join sep rest
      end
  end.

(** [s.split(c)] for a separator [c] of one code unit: an empty string
    gives one empty piece. *)
Fixpoint split_on (c : ascii) (s : string) : list string :=
  match s with
  | "" => [""]
  | String x s' =>
      if Ascii.eqb x c then "" :: split_on c s'
      else match split_on c s' with
           | piece :: pieces => String x piece :: pieces
           | [] => [String x ""]
           end
  end.

(** [s.trim()]: white space and line terminators go from both ends. *)
Definition trim (s : string) : string :=
  string_of_list_ascii (rev (drop_white (rev (drop_white (split s))))).

End JS.

Import JS.

(** ** The check digit (identical in the three revisions) *)

(** [interface EanCode], in a name space of its own since [baseCode] also
    names a piece of component state. *)
Module Ean.
Record EanCode : Type := mk { code : string; baseCode : string }.
End Ean.
Abbreviation EanCode := Ean.EanCode.

Definition calculateEanCheckDigit (code : string) : string :=
  let digits := map Number (split code) in
  let sum :=
    fold_left
      (fun sum i =>
         add sum (mul (index digits i)
                      (if Nat.eqb (i mod 2) 0 then Num 1 else Num 3)))
      (seq 0 12) (Num 0) in
  let checkDigit := rem (sub (Num 10) (rem sum (Num 10))) (Num 10) in
  toString checkDigit.

(** The EAN-13 checksum as the specification words it: the sum over
    i in 0..12 of digit[i] times (3 if i is odd else 1). *)
Definition ean13_weighted_sum (full : string) : number :=
  let digits := map Number (split full) in
  fold_left
    (fun sum i =>
       add sum (mul (index digits i) (if Nat.odd i then Num 3 else Num 1)))
    (seq 0 13) (Num 0).

(** ** What the three revisions share *)

Inductive toast : Type :=
| toast_error (msg : string)
| toast_success (msg : string).

(** The values taken by [i] in [for (let i = 0; i < qty; i++)]. *)
Definition loop_indices (qty : number) : list Z :=
  match qty with
  | Num q => map Z.of_nat (seq 0 (Z.to_nat q))
  | NaN => []
  end.

(** [codes.push(e)]. *)
Definition push {A : Type} (codes : list A) (e : A) : list A :=
  (codes ++ [e])%list.

(** [codes[codes.length - 1]]. *)
Definition last_code (codes : list EanCode) : option EanCode :=
  nth_error codes (List.length codes - 1).

(** [isNaN(qty) || qty < 1 || qty > 1000]. *)
Definition bad_quantity (qty : number) : bool :=
  isNaN qty || lt qty (Num 1) || gt qty (Num 1000).

(** The loop of the [FreeBase] and [Saved] revisions: the whole number is
    incremented and padded to 12 places. *)
Definition generate_codes (startNumber qty : number) : list EanCode :=
  fold_left
    (fun codes i =>
       let currentBase :=
         padStart (toString (add startNumber (Num i))) 12 "0" in
       let checkDigit := calculateEanCheckDigit currentBase in
       let fullCode := currentBase ++ checkDigit in
       push codes {| Ean.code := fullCode; Ean.baseCode := currentBase |})
    (loop_indices qty) [].

(** ** Revision with prefix, CNPJ digits and a 4-digit tail *)

Module Prefixed.

Record State : Type := mkState {
  prefix : string;
  cnpjDigits : string;
  quantity : string;
  lastBaseCode : string;
  generatedCodes : list EanCode;
  (** the entry "lastEanBaseCode" of localStorage *)
  localStorage : option string;
  toasts : list toast
}.

Definition notify (t : toast) (s : State) : State :=
  {| prefix := prefix s; cnpjDigits := cnpjDigits s;
     quantity := quantity s; lastBaseCode := lastBaseCode s;
     generatedCodes := generatedCodes s; localStorage := localStorage s;
     toasts := (toasts s ++ [t])%list |}.

(** The state on mount: the [useState] defaults, then the effect that
    loads the saved cursor when there is a non-empty one. *)
Definition init (saved : option string) : State :=
  {| prefix := "789"; cnpjDigits := ""; quantity := "1";
     lastBaseCode :=
       match saved with
       | Some c => if truthy c then c else ""
       | None => ""
       end;
     generatedCodes := []; localStorage := saved; toasts := [] |}.

(** The radio group offers "789" and "790". *)
Definition setPrefix (v : string) (s : State) : State :=
  {| prefix := v; cnpjDigits := cnpjDigits s;
     quantity := quantity s; lastBaseCode := lastBaseCode s;
     generatedCodes := generatedCodes s; localStorage := localStorage s;
     toasts := toasts s |}.

(** The [onChange] handler of the CNPJ field drops every character that
    is not a decimal digit. *)
Definition setCnpjDigits (v : string) (s : State) : State :=
  {| prefix := prefix s;
     cnpjDigits := string_of_list_ascii (filter is_digit (split v));
     quantity := quantity s; lastBaseCode := lastBaseCode s;
     generatedCodes := generatedCodes s; localStorage := localStorage s;
     toasts := toasts s |}.

Definition setQuantity (q : string) (s : State) : State :=
  {| prefix := prefix s; cnpjDigits := cnpjDigits s;
     quantity := q; lastBaseCode := lastBaseCode s;
     generatedCodes := generatedCodes s; localStorage := localStorage s;
     toasts := toasts s |}.

Definition startNumber_of (s : State) : number :=
  if truthy (lastBaseCode s)
     && startsWith (lastBaseCode s) (prefix s ++ cnpjDigits s)
  then
    let lastFourDigits := slice (lastBaseCode s) 8 12 in
    add (parseInt lastFourDigits) (Num 1)
  else Num 0.

Definition generate_codes (s : State) (startNumber qty : number)
  : list EanCode :=
  fold_left
    (fun codes i =>
       let fourDigits :=
         padStart (toString (add startNumber (Num i))) 4 "0" in
       let baseCode := (prefix s ++ cnpjDigits s) ++ fourDigits in
       let checkDigit := calculateEanCheckDigit baseCode in
       let fullCode := baseCode ++ checkDigit in
       push codes {| Ean.code := fullCode; Ean.baseCode := baseCode |})
    (loop_indices qty) [].

Definition generateEans (s : State) : State :=
  if negb (Nat.eqb (String.length (cnpjDigits s)) 5) then
    notify (toast_error "Digite exatamente 5 dígitos do CNPJ") s
  else
    let qty := parseInt (quantity s) in
    if bad_quantity qty then
      notify (toast_error "Quantidade deve ser entre 1 e 1000") s
    else
      let codes := generate_codes s (startNumber_of s) qty in
      match last_code codes with
      | None => s (* not reached: qty >= 1 *)
      | Some e =>
          let lastGenerated := Ean.baseCode e in
          {| prefix := prefix s; cnpjDigits := cnpjDigits s;
             quantity := quantity s;
             lastBaseCode := lastGenerated;
             localStorage := Some lastGenerated;
             generatedCodes := codes;
             toasts :=
               (toasts s ++
                [toast_success
                   (toString qty
                    ++ " código(s) EAN-13 gerado(s) com sucesso!")])%list |}
      end.

Definition resetLastCode (s : State) : State :=
  {| prefix := prefix s; cnpjDigits := cnpjDigits s;
     quantity := quantity s; lastBaseCode := "";
     generatedCodes := generatedCodes s; localStorage := None;
     toasts := (toasts s ++ [toast_success "Último código resetado!"])%list |}.

End Prefixed.

(** ** Revision with a free 12-digit base code *)

Module FreeBase.

Record State : Type := mkState {
  baseCode : string;
  quantity : string;
  lastBaseCode : string;
  generatedCodes : list EanCode;
  (** the entry "lastEanBaseCode" of localStorage *)
  localStorage : option string;
  toasts : list toast
}.

Definition notify (t : toast) (s : State) : State :=
  {| baseCode := baseCode s; quantity := quantity s;
     lastBaseCode := lastBaseCode s;
     generatedCodes := generatedCodes s; localStorage := localStorage s;
     toasts := (toasts s ++ [t])%list |}.

(** The state on mount: the [useState] defaults, then the effect that
    loads the saved cursor when there is a non-empty one. *)
Definition init (saved : option string) : State :=
  {| baseCode := ""; quantity := "1";
     lastBaseCode :=
       match saved with
       | Some c => if truthy c then c else ""
       | None => ""
       end;
     generatedCodes := []; localStorage := saved; toasts := [] |}.

(** The [onChange] handler of the base-code field drops every character
    that is not a decimal digit. *)
Definition setBaseCode (v : string) (s : State) : State :=
  {| baseCode := string_of_list_ascii (filter is_digit (split v));
     quantity := quantity s;
     lastBaseCode := lastBaseCode s;
     generatedCodes := generatedCodes s; localStorage := localStorage s;
     toasts := toasts s |}.

(** The [onChange] handler of the quantity field. *)
Definition setQuantity (q : string) (s : State) : State :=
  {| baseCode := baseCode s; quantity := q;
     lastBaseCode := lastBaseCode s;
     generatedCodes := generatedCodes s; localStorage := localStorage s;
     toasts := toasts s |}.

Definition generateEans (s : State) : State :=
  if negb (Nat.eqb (String.length (baseCode s)) 12) then
    notify (toast_error "Digite exatamente 12 dígitos do código base") s
  else if negb (all_digits (baseCode s)) then
    notify (toast_error "Digite apenas números") s
  else
    let qty := parseInt (quantity s) in
    if bad_quantity qty then
      notify (toast_error "Quantidade deve ser entre 1 e 1000") s
    else
      let startNumber := parseInt (baseCode s) in
      let codes := generate_codes startNumber qty in
      match last_code codes with
      | None => s (* not reached: qty >= 1 *)
      | Some e =>
          let lastGenerated := Ean.baseCode e in
          {| baseCode := baseCode s; quantity := quantity s;
             lastBaseCode := lastGenerated;
             localStorage := Some lastGenerated;
             generatedCodes := codes;
             toasts :=
               (toasts s ++
                [toast_success
                   (toString qty
                    ++ " código(s) EAN-13 gerado(s) com sucesso!")])%list |}
      end.

Definition resetLastCode (s : State) : State :=
  {| baseCode := baseCode s; quantity := quantity s;
     lastBaseCode := "";
     generatedCodes := generatedCodes s; localStorage := None;
     toasts := (toasts s ++ [toast_success "Último código resetado!"])%list |}.

End FreeBase.

(** ** Revision with named bases in the table [saved_ean_bases] *)

Module Saved.

Record SavedEanBase : Type := mkBase {
  id : string;
  name : string;
  cnpj_prefix : string;
  last_base_code : string
}.

Definition with_last_base_code (b : SavedEanBase) (c : string)
  : SavedEanBase :=
  {| id := id b; name := name b; cnpj_prefix := cnpj_prefix b;
     last_base_code := c |}.

(** The CHECK constraint of the migration:
    [last_base_code ~ '^[0-9]{12}$']. *)
Definition last_base_code_format (c : string) : bool :=
  Nat.eqb (String.length c) 12 && forallb is_digit (split c).

(** How a write can fail for a reason outside the component: the client
    answers with an [error], or the call throws. *)
Inductive fault : Type := error_returned | call_throws.

Inductive update_result : Type := update_ok | update_failed.

(** [supabase.from("saved_ean_bases").update({ last_base_code: c })
    .eq("id", i)] on the rows of the table: with no outside fault, the
    rows with that id are rewritten unless the constraint refuses the
    new value. *)
Definition update_last_base_code
    (f : option fault) (i c : string) (rows : list SavedEanBase)
  : update_result * list SavedEanBase :=
  match f with
  | Some _ => (update_failed, rows)
  | None =>
      if existsb (fun r => String.eqb (id r) i) rows
         && negb (last_base_code_format c)
      then (update_failed, rows)
      else (update_ok,
            map (fun r => if String.eqb (id r) i
                          then with_last_base_code r c else r) rows)
  end.

Record State : Type := mkState {
  (** [user.id] of the signed-in user, if any *)
  user : option string;
  savedBases : list SavedEanBase;
  selectedBase : option SavedEanBase;
  quantity : string;
  generatedCodes : list EanCode;
  toasts : list toast;
  (** the rows of [saved_ean_bases] that the row policies let this user
    update *)
  table : list SavedEanBase
}.

Definition notify (t : toast) (s : State) : State :=
  {| user := user s; savedBases := savedBases s;
     selectedBase := selectedBase s; quantity := quantity s;
     generatedCodes := generatedCodes s;
     toasts := (toasts s ++ [t])%list; table := table s |}.

Definition setQuantity (q : string) (s : State) : State :=
  {| user := user s; savedBases := savedBases s;
     selectedBase := selectedBase s; quantity := q;
     generatedCodes := generatedCodes s;
     toasts := toasts s; table := table s |}.

(** The local cursor moves only on the success path of the [try]. *)
Definition advance (sel : SavedEanBase) (nextBaseCode : string)
    (rows : list SavedEanBase) (s : State) : State :=
  let updatedBase := with_last_base_code sel nextBaseCode in
  {| user := user s;
     savedBases :=
       map (fun b => if String.eqb (id b) (id sel) then updatedBase else b)
           (savedBases s);
     selectedBase := Some updatedBase;
     quantity := quantity s;
     generatedCodes := generatedCodes s;
     toasts := toasts s; table := rows |}.

Definition setGeneratedCodes (codes : list EanCode) (s : State) : State :=
  {| user := user s; savedBases := savedBases s;
     selectedBase := selectedBase s; quantity := quantity s;
     generatedCodes := codes;
     toasts := toasts s; table := table s |}.

(** [nextBaseCode] as computed from the last generated base code. *)
Definition nextBaseCode_of (lastGenerated : string) : string :=
  padStart (toString (add (parseInt lastGenerated) (Num 1))) 12 "0".

Definition generateEans (f : option fault) (s : State) : State :=
  match selectedBase s, user s with
  | Some sel, Some _ =>
      let qty := parseInt (quantity s) in
      if bad_quantity qty then
        notify (toast_error "Quantidade deve ser entre 1 e 1000") s
      else
        let startNumber := parseInt (last_base_code sel) in
        let codes := generate_codes startNumber qty in
        match last_code codes with
        | None => s (* not reached: qty >= 1 *)
        | Some e =>
            let lastGenerated := Ean.baseCode e in
            let nextBaseCode := nextBaseCode_of lastGenerated in
            let s1 :=
              match update_last_base_code f (id sel) nextBaseCode (table s)
              with
              | (update_ok, rows) => advance sel nextBaseCode rows s
              | (update_failed, _) =>
                  notify (toast_error "Erro ao salvar último código") s
              end in
            notify
              (toast_success (toString qty ++ " código(s) EAN-13 gerado(s)!"))
              (setGeneratedCodes codes s1)
        end
  | _, _ => s
  end.

(** The cursor stored on the server for the base [i]. *)
Definition stored_cursor (i : string) (s : State) : option string :=
  option_map last_base_code
    (find (fun r => String.eqb (id r) i) (table s)).

(** Another CHECK constraint of the migration:
    [cnpj_prefix ~ '^[0-9]{5}$']. *)
Definition cnpj_prefix_format (c : string) : bool :=
  Nat.eqb (String.length c) 5 && forallb is_digit (split c).

(** The double quote of the toast texts. *)
Definition quote : string := String "034"%char "".

(** The fields of the new-base form. *)
Record Form : Type := mkForm {
  showNewForm : bool;
  newName : string;
  newCnpjPrefix : string
}.

(** What the server answers to the insert: the new row under a fresh id,
    an error with its code ("23505" is a unique violation), or a call that
    throws. *)
Inductive insert_reply : Type :=
| inserted (new_id : string)
| insert_error (code : string)
| insert_throws.

Definition createNewBase (r : insert_reply) (s : State) (f : Form)
  : State * Form :=
  match user s with
  | None => (s, f)
  | Some _ =>
      if negb (truthy (trim (newName f))) then
        (notify (toast_error "Digite um nome para identificar") s, f)
      else if negb (Nat.eqb (String.length (newCnpjPrefix f)) 5)
              || negb (all_digits (newCnpjPrefix f)) then
        (notify (toast_error "Digite exatamente 5 dígitos do CNPJ") s, f)
      else
        let initialBaseCode := "789" ++ newCnpjPrefix f ++ "0001" in
        match r with
        | inserted new_id =>
            let data := {| id := new_id; name := trim (newName f);
                           cnpj_prefix := newCnpjPrefix f;
                           last_base_code := initialBaseCode |} in
            ({| user := user s;
                savedBases := (savedBases s ++ [data])%list;
                selectedBase := Some data;
                quantity := quantity s;
                generatedCodes := generatedCodes s;
                toasts :=
                  (toasts s ++
                   [toast_success
                      ("Base " ++ quote ++ newName f ++ quote
                       ++ " criada com sucesso!")])%list;
                table := (table s ++ [data])%list |},
             {| showNewForm := false; newName := ""; newCnpjPrefix := "" |})
        | insert_error code =>
            if String.eqb code "23505" then
              (notify (toast_error "Já existe uma base com esse nome") s, f)
            else (notify (toast_error "Erro ao criar base") s, f)
        | insert_throws => (notify (toast_error "Erro ao criar base") s, f)
        end
  end.

Definition deleteBase (f : option fault) (base : SavedEanBase) (s : State)
  : State :=
  match f with
  | Some _ => notify (toast_error "Erro ao remover base") s
  | None =>
      let keep := fun b => negb (String.eqb (id b) (id base)) in
      let selected :=
        match selectedBase s with
        | Some sel => String.eqb (id sel) (id base)
        | None => false
        end in
      {| user := user s;
         savedBases := filter keep (savedBases s);
         selectedBase := if selected then None else selectedBase s;
         quantity := quantity s;
         generatedCodes := if selected then [] else generatedCodes s;
         toasts :=
           (toasts s ++
            [toast_success
               ("Base " ++ quote ++ name base ++ quote ++ " removida")])%list;
         table := filter keep (table s) |}
  end.

End Saved.

(** ** Export of the generated codes (identical in the three revisions) *)

Definition newline : string := String "010"%char "".

(** [generatedCodes.map(c => c.code).join('\n')], the text that
    [copyAllCodes] puts on the clipboard and [downloadCodes] into the
    file. *)
Definition allCodes (generatedCodes : list EanCode) : string :=
  join newline (map Ean.code generatedCodes).

(** ** The access gate: server predicates and their client counterparts *)

Module Access.

(** [CREATE TYPE app_role AS ENUM ('admin', 'user')]. *)
Inductive app_role : Type := admin | user.

Definition role_eqb (a b : app_role) : bool :=
  match a, b with
  | admin, admin => true
  | user, user => true
  | _, _ => false
  end.

(** Rows of [user_roles], [user_access] and [profiles]; a point in time is
    its number of milliseconds since the epoch. *)
Record role_row : Type := mkRole { role_user_id : string; role : app_role }.

Record access_row : Type :=
  mkAccess { access_user_id : string; expires_at : Z }.

Record profile_row : Type :=
  mkProfile { profile_user_id : string; email : string }.

(** [public.has_role(_user_id, _role)]. *)
Definition has_role (user_roles : list role_row)
    (_user_id : string) (_role : app_role) : bool :=
  existsb (fun r => String.eqb (role_user_id r) _user_id
                    && role_eqb (role r) _role) user_roles.

(** [public.has_valid_access(_user_id)] evaluated at time [now]. *)
Definition has_valid_access (user_roles : list role_row)
    (user_access : list access_row) (now : Z) (_user_id : string) : bool :=
  existsb (fun a => String.eqb (access_user_id a) _user_id
                    && (now <? expires_at a)) user_access
  || existsb (fun r => String.eqb (role_user_id r) _user_id
                       && role_eqb (role r) admin) user_roles.

(** What a query gives back: rows, an error (no data), or a call that
    throws. *)
Inductive reply (A : Type) : Type :=
| data (rows : list A)
| failed
| throws.

Arguments data {A} rows.
Arguments failed {A}.
Arguments throws {A}.

(** [.maybeSingle()]: the row when there is exactly one, no data
    otherwise. *)
Definition maybeSingle {A : Type} (r : reply A) : option A :=
  match r with
  | data [x] => Some x
  | _ => None
  end.

(** The two queries of [checkUserAccess] as the server filters them. *)
Definition admin_rows (user_roles : list role_row) (userId : string)
  : list role_row :=
  filter (fun r => String.eqb (role_user_id r) userId
                   && role_eqb (role r) admin) user_roles.

Definition access_rows (user_access : list access_row) (userId : string)
  : list access_row :=
  filter (fun a => String.eqb (access_user_id a) userId) user_access.

Record AuthState : Type := mkAuth {
  isAdmin : bool;
  hasAccess : bool;
  accessExpiresAt : option Z
}.

(** [checkUserAccess] of the auth provider, given the answers to its two
    queries and the time read by [new Date()]. *)
Definition checkUserAccess (roleReply : reply role_row)
    (accessReply : reply access_row) (now : Z) (st : AuthState)
  : AuthState :=
  let caught := {| isAdmin := false; hasAccess := false;
                   accessExpiresAt := accessExpiresAt st |} in
  match roleReply with
  | throws => caught
  | _ =>
      match maybeSingle roleReply with
      | Some _ =>
          {| isAdmin := true; hasAccess := true; accessExpiresAt := None |}
      | None =>
          match accessReply with
          | throws => caught
          | _ =>
              match maybeSingle accessReply with
              | Some accessData =>
                  if now <? expires_at accessData then
                    {| isAdmin := false; hasAccess := true;
                       accessExpiresAt := Some (expires_at accessData) |}
                  else
                    {| isAdmin := false; hasAccess := false;
                       accessExpiresAt := Some (expires_at accessData) |}
              | None =>
                  {| isAdmin := false; hasAccess := false;
                     accessExpiresAt := None |}
              end
          end
      end
  end.

(** The auth state after the listener sees no session. *)
Definition signedOut : AuthState :=
  {| isAdmin := false; hasAccess := false; accessExpiresAt := None |}.

(** A row of the admin page, as [fetchUsers] builds it. *)
Record UserWithAccess : Type := mkUser {
  u_id : string;
  u_email : string;
  u_isAdmin : bool;
  u_expiresAt : option Z;
  u_hasAccess : bool
}.

Definition userWithAccess (roles : list role_row)
    (accesses : list access_row) (now : Z) (profile : profile_row)
  : UserWithAccess :=
  let userRoles :=
    filter (fun r => String.eqb (role_user_id r) (profile_user_id profile))
           roles in
  let isUserAdmin := existsb (fun r => role_eqb (role r) admin) userRoles in
  let access :=
    find (fun a => String.eqb (access_user_id a) (profile_user_id profile))
         accesses in
  let expiresAt := option_map expires_at access in
  let hasAccess :=
    isUserAdmin
    || match expiresAt with
       | Some e => now <? e
       | None => false
       end in
  {| u_id := profile_user_id profile; u_email := email profile;
     u_isAdmin := isUserAdmin; u_expiresAt := expiresAt;
     u_hasAccess := hasAccess |}.

End Access.

(** ** The admin page: revoking access and toggling the admin role *)

Module Admin.

(** [revokeAccess(userId)]: the rows of [user_access] after the delete,
    and the toast. *)
Definition revokeAccess (f : option Saved.fault) (userId : string)
    (user_access : list Access.access_row)
  : list Access.access_row * toast :=
  match f with
  | Some _ => (user_access, toast_error "Erro ao revogar acesso")
  | None =>
      (filter (fun a => negb (String.eqb (Access.access_user_id a) userId))
              user_access,
       toast_success "Acesso revogado!")
  end.

(** [toggleAdmin(userId, currentlyAdmin)]: the rows of [user_roles]
    afterwards, and the toast.  The insert is refused when the row is there
    already ([UNIQUE (user_id, role)]). *)
Definition toggleAdmin (f : option Saved.fault) (userId : string)
    (currentlyAdmin : bool) (user_roles : list Access.role_row)
  : list Access.role_row * toast :=
  match f with
  | Some _ => (user_roles, toast_error "Erro ao alterar privilégios")
  | None =>
      if currentlyAdmin then
        (filter (fun r => negb (String.eqb (Access.role_user_id r) userId
                                && Access.role_eqb (Access.role r)
                                                   Access.admin))
                user_roles,
         toast_success "Privilégios de admin removidos")
      else if Access.has_role user_roles userId Access.admin then
        (user_roles, toast_error "Erro ao alterar privilégios")
      else
        ((user_roles
          ++ [ {| Access.role_user_id := userId;
                  Access.role := Access.admin |} ])%list,
         toast_success "Usuário promovido a admin")
  end.

End Admin.

(** ** Vocabulary of the statements *)

(** Value of a list of decimal digits, least significant first. *)
Definition val_le (l : list Z) : Z :=
  fold_right (fun d a => d + 10 * a) 0 l.

(** Value of a sequence of decimal digit characters read from the left. *)
Definition dec_value (cs : list ascii) : Z :=
  fold_left (fun a c => a * 10 + digit_val c) cs 0.

(** A base code as the data model has it: exactly 12 decimal digits. *)
Definition is_base_code (s : string) : bool :=
  Nat.eqb (String.length s) 12 && forallb is_digit (split s).

(** The number a string of decimal digits denotes. *)
Definition numeric_value (s : string) : Z := dec_value (split s).

(** What the specification asks of a batch of [q] codes from number [n]:
    [q] entries; the [i]-th base code is the 12-digit decimal string of
    [n + i] and its full code appends the check digit; base codes ascend
    strictly. *)
Definition is_batch (n q : Z) (codes : list EanCode) : Prop :=
  List.length codes = Z.to_nat q /\
  (forall i, 0 <= i < q ->
     exists e, nth_error codes (Z.to_nat i) = Some e /\
       is_base_code (Ean.baseCode e) = true /\
       numeric_value (Ean.baseCode e) = n + i /\
       Ean.code e
       = Ean.baseCode e ++ calculateEanCheckDigit (Ean.baseCode e)) /\
  (forall i j ei ej, (i < j)%nat ->
     nth_error codes i = Some ei -> nth_error codes j = Some ej ->
     numeric_value (Ean.baseCode ei) < numeric_value (Ean.baseCode ej)).

Definition base_codes (codes : list EanCode) : list string :=
  map Ean.baseCode codes.

(** The number [n] printed and padded with zeros to [k] places, as the
    loops do it. *)
Definition padded (k : nat) (n : Z) : string :=
  padStart (toString (Num n)) k "0".

(** The base code of number [n] as the loop builds it. *)
Definition base_of (n : Z) : string := padded 12 n.

(** The contiguous ascending run of [len] base codes from number [n]. *)
Definition run (n len : Z) : list string :=
  map (fun i => base_of (n + Z.of_nat i)) (seq 0 (Z.to_nat len)).

(** The entry of the prefixed revision for the head (prefix and CNPJ
    digits) [head] and the tail number [m]. *)
Definition prefixed_entry (head : string) (m : Z) : EanCode :=
  {| Ean.code :=
       (head ++ padded 4 m) ++ calculateEanCheckDigit (head ++ padded 4 m);
     Ean.baseCode := head ++ padded 4 m |}.

(** A quantity string that parses to no number in 1..1000. *)
Definition quantity_out_of_range (quantity : string) : Prop :=
  forall q, parseInt quantity = Num q -> q < 1 \/ 1000 < q.

(** The entry of a batch for the base code of number [n]. *)
Definition entry_of (n : Z) : EanCode :=
  {| Ean.code := base_of n ++ calculateEanCheckDigit (base_of n);
     Ean.baseCode := base_of n |}.

(** A well-formed EAN-13 code: 13 decimal digits whose weighted sum is a
    multiple of 10. *)
Definition is_ean13 (c : string) : Prop :=
  String.length c = 13%nat /\
  forallb is_digit (split c) = true /\
  exists t, ean13_weighted_sum c = Num t /\ t mod 10 = 0.

(** The string [x] does not hold the code unit [c]. *)
Definition free_of (c : ascii) (x : string) : Prop :=
  forallb (fun y => negb (Ascii.eqb y c)) (split x) = true.

(** The cursor of a saved base is a 12-digit base code. *)
Definition valid_cursor (b : Saved.SavedEanBase) : Prop :=
  Saved.last_base_code_format (Saved.last_base_code b) = true.

(** The weighted sum of the specification computed on the integers, with
    no use of the JavaScript arithmetic: the digit at position [i] counts 3
    times when [i] is odd and once when it is even. *)
Fixpoint weighted_digits (i : nat) (cs : list ascii) : Z :=
  match cs with
  | [] => 0
  | c :: cs' =>
      digit_val c * (if Nat.odd i then 3 else 1) + weighted_digits (S i) cs'
  end.

Definition ean13_digit_sum (full : string) : Z :=
  weighted_digits 0 (split full).

(** * Properties *)

(** The built-ins on a few inputs. *)
Example builtin_samples :
  parseInt "000000000042" = Num 42 /\ parseInt " -12px" = Num (-12) /\
  parseInt "0x1F" = Num 31 /\ parseInt "" = NaN /\ parseInt "1e3" = Num 1 /\
  parseInt "abc" = NaN /\
  toString (Num 1000000000000) = "1000000000000" /\
  toString (add (parseInt "abc") (Num 1)) = "NaN" /\
  padStart (toString (Num 7)) 12 "0" = "000000000007" /\
  padStart "1000000000000" 12 "0" = "1000000000000" /\
  slice "789123450041" 8 12 = "0041" /\
  slice "78912345" 8 12 = "" /\
  startsWith "789123450041" "78912345" = true /\
  Number "7" = Num 7 /\ Number " " = Num 0 /\ Number "x" = NaN.
Proof. vm_compute. repeat split. Qed.

(** The example of the specification: three codes from "000000000000". *)
Example batch_sample :
  let sel := {| Saved.id := "b1"; Saved.name := "Loja X";
                Saved.cnpj_prefix := "00000";
                Saved.last_base_code := "000000000000" |} in
  let s := {| Saved.user := Some "u1"; Saved.savedBases := [sel];
              Saved.selectedBase := Some sel; Saved.quantity := "3";
              Saved.generatedCodes := []; Saved.toasts := [];
              Saved.table := [sel] |} in
  let s' := Saved.generateEans None s in
  Saved.generatedCodes s'
  = [ {| Ean.code := "0000000000000"; Ean.baseCode := "000000000000" |};
      {| Ean.code := "0000000000017"; Ean.baseCode := "000000000001" |};
      {| Ean.code := "0000000000024"; Ean.baseCode := "000000000002" |} ] /\
  Saved.stored_cursor "b1" s' = Some "000000000003".
Proof. vm_compute. repeat split. Qed.

(** ** Digits and numbers *)

Lemma is_digit_bounds (c : ascii) :
  is_digit c = true -> 0 <= digit_val c <= 9.
Proof.
  unfold is_digit, digit_val. intros H.
  apply andb_true_iff in H. destruct H as [H1 H2].
  apply Z.leb_le in H1. apply Z.leb_le in H2. lia.
Qed.

Lemma Number_digit (c : ascii) :
  is_digit c = true -> Number c = Num (digit_val c).
Proof. unfold Number. intros ->. reflexivity. Qed.

Lemma Number_not_digit (c : ascii) :
  is_digit c = false -> is_white c = false -> Number c = NaN.
Proof. unfold Number. intros -> ->. reflexivity. Qed.

Lemma digits_le_small (f : nat) (d : Z) :
  0 <= d <= 9 -> digits_le (S f) d = [d].
Proof.
  intros H. cbn [digits_le].
  rewrite Z.mod_small by lia. rewrite Z.div_small by lia. reflexivity.
Qed.

Lemma toString_digit (d : Z) :
  0 <= d <= 9 -> toString (Num d) = String (digit_char d) "".
Proof.
  intros H. unfold toString, decimal.
  destruct (d <? 0) eqn:E; [apply Z.ltb_lt in E; lia|].
  rewrite digits_le_small by assumption. reflexivity.
Qed.

(** The arithmetic of the check digit. *)
Lemma check_digit_arith (s : Z) :
  0 <= s ->
  let c := Z.rem (10 - Z.rem s 10) 10 in
  0 <= c <= 9 /\ (s + c) mod 10 = 0.
Proof.
  intros Hs c. subst c.
  rewrite (Z.rem_mod_nonneg s 10) by lia.
  assert (Hm : 0 <= s mod 10 < 10) by (apply Z.mod_pos_bound; lia).
  rewrite Z.rem_mod_nonneg by lia.
  assert (Hc : 0 <= (10 - s mod 10) mod 10 < 10)
    by (apply Z.mod_pos_bound; lia).
  split; [lia|].
  rewrite Z.add_mod by lia. rewrite Z.mod_mod by lia.
  rewrite <- Z.add_mod by lia.
  replace (s + (10 - s mod 10)) with ((s - s mod 10) + 1 * 10) by lia.
  rewrite Z.mod_add by lia.
  rewrite Zminus_mod_idemp_r. rewrite Z.sub_diag. reflexivity.
Qed.

(** A [NaN] among the summands makes the whole sum [NaN]. *)
Lemma weighted_sum_NaN_acc (w : nat -> number) (digits : list number)
      (l : list nat) :
  fold_left (fun sum i => add sum (mul (index digits i) (w i))) l NaN = NaN.
Proof. induction l as [|i l IH]; [reflexivity|exact IH]. Qed.

Lemma weighted_sum_NaN (w : nat -> number) (digits : list number)
      (l : list nat) (acc : number) (i : nat) :
  In i l -> index digits i = NaN ->
  fold_left (fun sum i => add sum (mul (index digits i) (w i))) l acc = NaN.
Proof.
  revert acc. induction l as [|j l IH]; intros acc Hin Hi; [contradiction|].
  cbn [fold_left]. destruct Hin as [->|Hin].
  - rewrite Hi. cbn [mul]. destruct acc; apply weighted_sum_NaN_acc.
  - apply IH; assumption.
Qed.

(** Twelve decimal digits, one by one. *)
Lemma twelve_digits (B : string) :
  String.length B = 12%nat -> all_digits B = true ->
  exists z0 z1 z2 z3 z4 z5 z6 z7 z8 z9 z10 z11,
    map Number (split B) =
      map Num [z0; z1; z2; z3; z4; z5; z6; z7; z8; z9; z10; z11] /\
    Forall (fun z => 0 <= z <= 9)
           [z0; z1; z2; z3; z4; z5; z6; z7; z8; z9; z10; z11].
Proof.
  intros Hlen Hd.
  do 12 (destruct B as [|? B]; [discriminate Hlen|]).
  destruct B; [|discriminate Hlen].
  unfold all_digits, split in Hd. cbn [list_ascii_of_string forallb] in Hd.
  repeat match type of Hd with
         | (_ && _)%bool = true =>
             apply andb_true_iff in Hd;
             let H := fresh "Hc" in destruct Hd as [H Hd]
         end.
  do 12 eexists. split.
  - unfold split. cbn [list_ascii_of_string map].
    repeat (rewrite Number_digit by assumption). reflexivity.
  - repeat constructor; apply is_digit_bounds; assumption.
Qed.

Lemma split_app (a b : string) : split (a ++ b) = (split a ++ split b)%list.
Proof.
  unfold split. induction a as [|c a IH]; [reflexivity|].
  cbn. rewrite IH. reflexivity.
Qed.

Lemma length_split (s : string) : List.length (split s) = String.length s.
Proof.
  unfold split. induction s as [|c s IH]; [reflexivity|].
  cbn. rewrite IH. reflexivity.
Qed.

Lemma is_digit_digit_char (d : Z) :
  0 <= d <= 9 -> is_digit (digit_char d) = true /\ digit_val (digit_char d) = d.
Proof.
  intros H.
  assert (E : d = 0 \/ d = 1 \/ d = 2 \/ d = 3 \/ d = 4 \/ d = 5 \/ d = 6
              \/ d = 7 \/ d = 8 \/ d = 9) by lia.
  repeat (destruct E as [->|E]; [split; reflexivity|]).
  subst d. split; reflexivity.
Qed.

(** ** The check digit *)

(** C1: for every string B of 12 decimal digits, calculateEanCheckDigit B
    is one decimal digit (a value d in 0..9 printed as one character), and
    the 13 digits of B followed by it have a weighted sum (weight 3 at odd
    positions, 1 at even ones, counted from 0), taken on the integers, that
    is 0 modulo 10; the sum that the JavaScript arithmetic gives for these
    13 digits is that same integer. *)
Theorem check_digit_checksum (B : string) :
  String.length B = 12%nat -> all_digits B = true ->
  exists d,
    0 <= d <= 9 /\
    calculateEanCheckDigit B = String (digit_char d) "" /\
    String.length (B ++ calculateEanCheckDigit B) = 13%nat /\
    forallb is_digit (split (B ++ calculateEanCheckDigit B)) = true /\
    ean13_digit_sum (B ++ calculateEanCheckDigit B) mod 10 = 0 /\
    ean13_weighted_sum (B ++ calculateEanCheckDigit B)
    = Num (ean13_digit_sum (B ++ calculateEanCheckDigit B)).
Proof.
  intros Hlen Hd.
  destruct B as [|c0 B]; [discriminate Hlen|].
  destruct B as [|c1 B]; [discriminate Hlen|].
  destruct B as [|c2 B]; [discriminate Hlen|].
  destruct B as [|c3 B]; [discriminate Hlen|].
  destruct B as [|c4 B]; [discriminate Hlen|].
  destruct B as [|c5 B]; [discriminate Hlen|].
  destruct B as [|c6 B]; [discriminate Hlen|].
  destruct B as [|c7 B]; [discriminate Hlen|].
  destruct B as [|c8 B]; [discriminate Hlen|].
  destruct B as [|c9 B]; [discriminate Hlen|].
  destruct B as [|c10 B]; [discriminate Hlen|].
  destruct B as [|c11 B]; [discriminate Hlen|].
  destruct B; [|discriminate Hlen].
  unfold all_digits, split in Hd. cbn [list_ascii_of_string forallb] in Hd.
  repeat match type of Hd with
         | (_ && _)%bool = true =>
             apply andb_true_iff in Hd;
             let H := fresh "Hc" in destruct Hd as [H Hd]
         end.
  repeat match goal with
         | H : is_digit ?c = true |- _ =>
             lazymatch goal with
             | _ : 0 <= digit_val c <= 9 |- _ => fail
             | _ => pose proof (is_digit_bounds c H)
             end
         end.
  set (Bs := String c0 (String c1 (String c2 (String c3 (String c4
            (String c5 (String c6 (String c7 (String c8 (String c9
            (String c10 (String c11 "")))))))))))).
  set (s := ean13_digit_sum Bs).
  assert (Hs : 0 <= s).
  { unfold s, ean13_digit_sum, Bs, split.
    cbn [list_ascii_of_string weighted_digits Nat.odd Nat.even negb]. lia. }
  assert (Es : fold_left
                 (fun sum i =>
                    add sum (mul (index (map Number (split Bs)) i)
                                 (if Nat.eqb (i mod 2) 0 then Num 1
                                  else Num 3)))
                 (seq 0 12) (Num 0) = Num s).
  { unfold s, ean13_digit_sum, Bs, split.
    cbn [list_ascii_of_string map].
    rewrite !Number_digit by assumption.
    cbn [fold_left seq index nth Nat.eqb Nat.modulo Nat.divmod fst snd
         Nat.sub add mul weighted_digits Nat.odd Nat.even negb].
    f_equal. lia. }
  destruct (check_digit_arith s Hs) as [Hcd Hm].
  set (c := Z.rem (10 - Z.rem s 10) 10) in *.
  destruct (is_digit_digit_char c Hcd) as [Hic Hvc].
  assert (Ecd : calculateEanCheckDigit Bs = String (digit_char c) "").
  { unfold calculateEanCheckDigit. cbv zeta. rewrite Es.
    cbn [sub rem Z.eqb]. fold c. apply toString_digit. exact Hcd. }
  assert (Efull : ean13_digit_sum (Bs ++ String (digit_char c) "") = s + c).
  { unfold s, ean13_digit_sum, Bs, split.
    cbn [append list_ascii_of_string weighted_digits Nat.odd Nat.even negb].
    rewrite Hvc. lia. }
  exists c. rewrite Ecd, Efull.
  split; [exact Hcd|]. split; [reflexivity|]. split; [reflexivity|].
  split; [|split; [exact Hm|]].
  - unfold Bs, split. cbn [append list_ascii_of_string forallb].
    repeat match goal with
           | H : is_digit ?x = true |- context [is_digit ?x] => rewrite H
           end.
    reflexivity.
  - unfold ean13_weighted_sum, s, ean13_digit_sum, Bs, split.
    cbn [append list_ascii_of_string map].
    rewrite !Number_digit by assumption. rewrite Hvc.
    cbn [fold_left seq index nth Nat.odd Nat.even negb add mul
         weighted_digits].
    f_equal. lia.
Qed.

Lemma check_digit_checksum_witness :
  calculateEanCheckDigit "789428216684" = "3" /\
  ean13_digit_sum "7894282166843" = 130 /\
  exists d,
    0 <= d <= 9 /\
    calculateEanCheckDigit "789428216684" = String (digit_char d) "" /\
    String.length ("789428216684" ++ calculateEanCheckDigit "789428216684")
    = 13%nat /\
    forallb is_digit
      (split ("789428216684" ++ calculateEanCheckDigit "789428216684"))
    = true /\
    ean13_digit_sum ("789428216684" ++ calculateEanCheckDigit "789428216684")
      mod 10 = 0 /\
    ean13_weighted_sum
      ("789428216684" ++ calculateEanCheckDigit "789428216684")
    = Num (ean13_digit_sum
             ("789428216684" ++ calculateEanCheckDigit "789428216684")).
Proof.
  split; [reflexivity|]. split; [reflexivity|].
  apply (check_digit_checksum "789428216684"); reflexivity.
Defined.

(** C8, as stated: both base codes would get the check digit "0".  The
    second one gets "3". *)
Lemma check_digit_examples_as_stated_fail :
  ~ (calculateEanCheckDigit "000000000000" = "0" /\
     calculateEanCheckDigit "789428216684" = "0").
Proof. intros [_ H]. vm_compute in H. discriminate H. Qed.

(** C8, amended: calculateEanCheckDigit "000000000000" is "0" and
    calculateEanCheckDigit "789428216684" is "3" (weighted sum 127), so the
    full code is "7894282166843". *)
Theorem check_digit_examples :
  calculateEanCheckDigit "000000000000" = "0" /\
  calculateEanCheckDigit "789428216684" = "3" /\
  "789428216684" ++ calculateEanCheckDigit "789428216684" = "7894282166843".
Proof. repeat split; reflexivity. Qed.

(** C9, as stated: a non-digit among the first 12 characters would rule
    out a digit as result.  A space converts to 0: the twelfth character
    below is not a decimal digit and the result is the digit "4". *)
Lemma check_digit_space_counts_as_zero :
  nth_error (split "12345678901 ") 11 = Some " "%char /\
  is_digit " " = false /\
  calculateEanCheckDigit "12345678901 " = "4" /\
  calculateEanCheckDigit "12345678901 " = calculateEanCheckDigit "123456789010".
Proof. repeat split; reflexivity. Qed.

(** C9, amended: when the input has fewer than 12 characters, or one of
    its first 12 characters is neither a decimal digit nor white space,
    calculateEanCheckDigit returns "NaN", which is no decimal digit. *)
Theorem check_digit_NaN (code : string) :
  (String.length code < 12)%nat \/
  (exists i c, (i < 12)%nat /\ nth_error (split code) i = Some c /\
               is_digit c = false /\ is_white c = false) ->
  calculateEanCheckDigit code = "NaN" /\
  forall d, calculateEanCheckDigit code <> String (digit_char d) "".
Proof.
  intros H.
  assert (E : calculateEanCheckDigit code = "NaN").
  { unfold calculateEanCheckDigit.
    assert (exists i, In i (seq 0 12)
                      /\ index (map Number (split code)) i = NaN)
      as (i & Hin & Hi).
    { destruct H as [Hlen | (i & c & Hi & Hc & Hd & Hw)].
      - exists 11%nat. split; [apply in_seq; lia|].
        unfold index. apply nth_overflow.
        rewrite length_map, length_split. lia.
      - exists i. split; [apply in_seq; lia|].
        unfold index.
        assert (Hlt : (i < List.length (split code))%nat)
          by (apply nth_error_Some; congruence).
        rewrite (nth_indep _ NaN (Number c))
          by (rewrite length_map; exact Hlt).
        rewrite map_nth.
        rewrite (nth_error_nth _ _ _ Hc).
        apply Number_not_digit; assumption. }
    rewrite (weighted_sum_NaN _ _ _ _ i Hin Hi). reflexivity. }
  split; [exact E|]. intros d. rewrite E. discriminate.
Qed.

Lemma check_digit_NaN_witness :
  calculateEanCheckDigit "78942821668x" = "NaN" /\
  forall d, calculateEanCheckDigit "78942821668x" <> String (digit_char d) "".
Proof.
  apply (check_digit_NaN "78942821668x").
  right. exists 11%nat, "x"%char. repeat split. cbn. lia.
Defined.

Lemma Number_digit_or_white (c : ascii) :
  is_digit c = true \/ is_white c = true ->
  exists z, Number c = Num z /\ 0 <= z <= 9.
Proof.
  unfold Number. destruct (is_digit c) eqn:E.
  - intros _. exists (digit_val c). split; [reflexivity|].
    apply is_digit_bounds. exact E.
  - intros [H|H]; [discriminate H|]. rewrite H. exists 0. split; [reflexivity|lia].
Qed.

Ltac number_at H k c :=
  let z := fresh "z" in
  let E := fresh "E" in
  let B := fresh "B" in
  destruct (Number_digit_or_white c (H k c ltac:(lia) eq_refl))
    as (z & E & B);
  rewrite E.

(** The other half of the picture: white space among the first 12
    characters counts as the digit 0, and what follows the twelfth
    character is not looked at. *)
Lemma check_digit_white_as_zero (code : string) :
  (12 <= String.length code)%nat ->
  (forall i c, (i < 12)%nat -> nth_error (split code) i = Some c ->
               is_digit c = true \/ is_white c = true) ->
  exists d, 0 <= d <= 9 /\
            calculateEanCheckDigit code = String (digit_char d) "".
Proof.
  intros Hlen H. unfold calculateEanCheckDigit.
  rewrite <- length_split in Hlen.
  destruct (split code)
    as [|c0 [|c1 [|c2 [|c3 [|c4 [|c5 [|c6 [|c7 [|c8 [|c9 [|c10 [|c11 rest]]]]]]]]]]]];
    cbn [List.length] in Hlen; try lia.
  cbn [map].
  number_at H 0%nat c0. number_at H 1%nat c1. number_at H 2%nat c2.
  number_at H 3%nat c3. number_at H 4%nat c4. number_at H 5%nat c5.
  number_at H 6%nat c6. number_at H 7%nat c7. number_at H 8%nat c8.
  number_at H 9%nat c9. number_at H 10%nat c10. number_at H 11%nat c11.
  cbn [fold_left seq index nth Nat.eqb Nat.modulo Nat.divmod fst snd
       Nat.sub add mul sub rem Z.eqb].
  match goal with
  | |- context [Z.rem (10 - Z.rem ?s 10) 10] =>
      destruct (check_digit_arith s ltac:(lia)) as [Hc _];
      exists (Z.rem (10 - Z.rem s 10) 10); split; [exact Hc|];
      apply toString_digit; exact Hc
  end.
Qed.

(** ** Printing and reading decimal numbers *)

Section Decimal.

Lemma digits_le_spec (f : nat) :
  forall n, 0 <= n < 2 ^ Z.of_nat f ->
    val_le (digits_le f n) = n /\
    Forall (fun d => 0 <= d <= 9) (digits_le f n).
Proof.
  induction f as [|f IH]; intros n Hn.
  - cbn in Hn. assert (n = 0) by lia. subst n. cbn. split; constructor.
  - cbn [digits_le].
    assert (Hm : 0 <= n mod 10 < 10) by (apply Z.mod_pos_bound; lia).
    assert (Hd : n = 10 * (n / 10) + n mod 10) by (apply Z.div_mod; lia).
    destruct (n / 10 =? 0) eqn:E.
    + apply Z.eqb_eq in E. cbn. split; [lia|].
      constructor; [lia|constructor].
    + apply Z.eqb_neq in E.
      assert (Hq : 0 <= n / 10 < 2 ^ Z.of_nat f).
      { rewrite Nat2Z.inj_succ, Z.pow_succ_r in Hn by lia.
        split; [apply Z.div_pos; lia|].
        apply Z.div_lt_upper_bound; lia. }
      destruct (IH _ Hq) as [Hv Hf]. cbn [val_le fold_right].
      fold (val_le (digits_le f (n / 10))). rewrite Hv.
      split; [lia|]. constructor; [lia|exact Hf].
Qed.

Lemma digits_le_length_upper (f : nat) :
  forall n k, 0 <= n < 2 ^ Z.of_nat f -> (1 <= k)%nat ->
    n < 10 ^ Z.of_nat k -> (List.length (digits_le f n) <= k)%nat.
Proof.
  induction f as [|f IH]; intros n k Hn Hk Hlt; [cbn; lia|].
  cbn [digits_le List.length].
  destruct (n / 10 =? 0) eqn:E; [cbn; lia|].
  apply Z.eqb_neq in E.
  assert (Hd : n = 10 * (n / 10) + n mod 10) by (apply Z.div_mod; lia).
  assert (Hm : 0 <= n mod 10 < 10) by (apply Z.mod_pos_bound; lia).
  assert (Hq0 : 0 <= n / 10) by (apply Z.div_pos; lia).
  destruct k as [|[|k]]; [lia| cbn in Hlt; lia |].
  assert (Hq : 0 <= n / 10 < 2 ^ Z.of_nat f).
  { rewrite Nat2Z.inj_succ, Z.pow_succ_r in Hn by lia.
    split; [exact Hq0|]. apply Z.div_lt_upper_bound; lia. }
  assert (Hlt' : n / 10 < 10 ^ Z.of_nat (S k)).
  { rewrite (Nat2Z.inj_succ (S k)), Z.pow_succ_r in Hlt by lia.
    apply Z.div_lt_upper_bound; lia. }
  specialize (IH (n / 10) (S k) Hq ltac:(lia) Hlt'). lia.
Qed.

Lemma digits_le_length_lower (f : nat) :
  forall n k, 0 <= n < 2 ^ Z.of_nat f ->
    10 ^ Z.of_nat k <= n -> (k < List.length (digits_le f n))%nat.
Proof.
  induction f as [|f IH]; intros n k Hn Hge.
  - cbn in Hn. assert (0 < 10 ^ Z.of_nat k) by (apply Z.pow_pos_nonneg; lia).
    lia.
  - cbn [digits_le List.length]. destruct k as [|k]; [lia|].
    rewrite Nat2Z.inj_succ, Z.pow_succ_r in Hge by lia.
    assert (Hp : 0 < 10 ^ Z.of_nat k) by (apply Z.pow_pos_nonneg; lia).
    assert (Hq' : 10 ^ Z.of_nat k <= n / 10)
      by (apply Z.div_le_lower_bound; lia).
    destruct (n / 10 =? 0) eqn:E; [apply Z.eqb_eq in E; lia|].
    assert (Hq : 0 <= n / 10 < 2 ^ Z.of_nat f).
    { rewrite Nat2Z.inj_succ, Z.pow_succ_r in Hn by lia.
      split; [lia|]. apply Z.div_lt_upper_bound; lia. }
    specialize (IH (n / 10) k Hq Hq'). lia.
Qed.

Lemma fuel_enough (n : Z) :
  0 <= n -> 0 <= n < 2 ^ Z.of_nat (S (Z.to_nat (Z.log2 n))).
Proof.
  intros Hn. split; [exact Hn|].
  rewrite Nat2Z.inj_succ, Z2Nat.id by apply Z.log2_nonneg.
  destruct (Z.eq_dec n 0) as [->|Hz]; [reflexivity|].
  apply Z.log2_spec. lia.
Qed.

End Decimal.

Section Strings.

Lemma digit_cases (c : ascii) :
  is_digit c = true ->
  In c ["0"; "1"; "2"; "3"; "4"; "5"; "6"; "7"; "8"; "9"]%char.
Proof.
  destruct c as [[] [] [] [] [] [] [] []]; intros H;
    try discriminate H; cbn; tauto.
Qed.

Lemma digit_not_white (c : ascii) : is_digit c = true -> is_white c = false.
Proof.
  intros H. apply digit_cases in H. cbn in H.
  repeat (destruct H as [<-|H]; [reflexivity|]). contradiction.
Qed.

Lemma radix_digit_digit (c : ascii) :
  is_digit c = true ->
  radix_digit c = Some (digit_val c) /\ (digit_val c <? 10) = true.
Proof.
  intros H. pose proof (is_digit_bounds c H) as Hb.
  unfold radix_digit. unfold is_digit in H. rewrite H.
  split; [reflexivity|]. apply Z.ltb_lt. lia.
Qed.

Lemma read_digits_all (cs : list ascii) :
  forallb is_digit cs = true ->
  forall acc k,
    read_digits 10 cs acc k =
      (fold_left (fun a c => a * 10 + digit_val c) cs acc,
       (k + List.length cs)%nat).
Proof.
  induction cs as [|c cs IH]; intros H acc k.
  - cbn. f_equal. lia.
  - cbn [forallb] in H. apply andb_true_iff in H. destruct H as [Hc Hcs].
    cbn [read_digits fold_left List.length].
    destruct (radix_digit_digit c Hc) as [-> ->].
    rewrite IH by exact Hcs. f_equal. lia.
Qed.

Lemma strip_hex_digits (cs : list ascii) :
  forallb is_digit cs = true -> strip_hex cs = None.
Proof.
  destruct cs as [|c [|c' cs]]; intros H; [reflexivity| |].
  - cbn in H. rewrite andb_true_r in H. apply digit_cases in H. cbn in H.
    repeat (destruct H as [<-|H]; [reflexivity|]). contradiction.
  - cbn [forallb] in H. apply andb_true_iff in H. destruct H as [Hc H].
    apply andb_true_iff in H. destruct H as [Hc' _].
    apply digit_cases in Hc. apply digit_cases in Hc'. cbn in Hc, Hc'.
    repeat (destruct Hc as [<-|Hc]; [try reflexivity|]);
      try contradiction.
    repeat (destruct Hc' as [<-|Hc']; [reflexivity|]). contradiction.
Qed.

(** [parseInt] of a non-empty string of decimal digits is its value. *)
Lemma parseInt_digits (s : string) :
  split s <> [] -> forallb is_digit (split s) = true ->
  parseInt s = Num (dec_value (split s)).
Proof.
  intros Hne H. unfold parseInt.
  destruct (split s) as [|c cs] eqn:E; [contradiction|].
  assert (Hc : is_digit c = true)
    by (cbn [forallb] in H; apply andb_true_iff in H; tauto).
  cbn [drop_white]. rewrite (digit_not_white c Hc).
  assert (Hp : parse_unsigned (c :: cs) = Num (dec_value (c :: cs))).
  { unfold parse_unsigned, parse_radix.
    rewrite strip_hex_digits, read_digits_all by exact H. reflexivity. }
  apply digit_cases in Hc. cbn in Hc.
  repeat (destruct Hc as [<-|Hc]; [exact Hp|]). contradiction.
Qed.

Lemma split_repeat_char (c : ascii) (n : nat) :
  split (repeat_char c n) = repeat c n.
Proof.
  unfold split. induction n as [|n IH]; [reflexivity|].
  cbn. rewrite IH. reflexivity.
Qed.

Lemma split_padStart (s : string) (k : nat) (c : ascii) :
  split (padStart s k c)
  = (repeat c (k - String.length s) ++ split s)%list.
Proof. unfold padStart. rewrite split_app, split_repeat_char. reflexivity. Qed.

Lemma length_padStart (s : string) (k : nat) (c : ascii) :
  String.length (padStart s k c) = Nat.max k (String.length s).
Proof.
  rewrite <- length_split, split_padStart, length_app, repeat_length,
    length_split. lia.
Qed.

Lemma dec_value_zeros (m : nat) (cs : list ascii) :
  dec_value (repeat "0"%char m ++ cs) = dec_value cs.
Proof.
  unfold dec_value. rewrite fold_left_app. f_equal.
  induction m as [|m IH]; [reflexivity|]. cbn [repeat fold_left].
  exact IH.
Qed.

Lemma forallb_repeat_zero (m : nat) :
  forallb is_digit (repeat "0"%char m) = true.
Proof. induction m as [|m IH]; [reflexivity|exact IH]. Qed.

Lemma dec_value_rev (l : list Z) :
  Forall (fun d => 0 <= d <= 9) l ->
  dec_value (rev (map digit_char l)) = val_le l /\
  forallb is_digit (rev (map digit_char l)) = true.
Proof.
  induction 1 as [|d l Hd Hl [IHv IHf]]; [split; reflexivity|].
  destruct (is_digit_digit_char d Hd) as [Hi Hv].
  cbn [map rev]. split.
  - unfold dec_value in *. rewrite fold_left_app. cbn [fold_left].
    rewrite IHv, Hv. cbn [val_le fold_right]. fold (val_le l). lia.
  - rewrite forallb_app, IHf. cbn. rewrite Hi. reflexivity.
Qed.

Lemma split_decimal (n : Z) :
  split (decimal n)
  = rev (map digit_char (digits_le (S (Z.to_nat (Z.log2 n))) n)).
Proof. unfold split, decimal. apply list_ascii_of_string_of_list_ascii. Qed.

Lemma length_decimal (n : Z) :
  String.length (decimal n)
  = List.length (digits_le (S (Z.to_nat (Z.log2 n))) n).
Proof.
  rewrite <- length_split, split_decimal, length_rev, length_map.
  reflexivity.
Qed.

Lemma toString_nonneg (n : Z) : 0 <= n -> toString (Num n) = decimal n.
Proof.
  intros H. unfold toString.
  destruct (n <? 0) eqn:E; [apply Z.ltb_lt in E; lia|reflexivity].
Qed.

End Strings.

(** ** Padded numbers *)

Section Padded.

Variable k : nat.
Variable n : Z.
Hypothesis n_nonneg : 0 <= n.

Lemma padded_digits : forallb is_digit (split (padded k n)) = true.
Proof.
  unfold padded. rewrite split_padStart, forallb_app, forallb_repeat_zero.
  rewrite toString_nonneg, split_decimal by exact n_nonneg.
  apply dec_value_rev, digits_le_spec, fuel_enough, n_nonneg.
Qed.

Lemma padded_value : numeric_value (padded k n) = n.
Proof.
  unfold numeric_value, padded. rewrite split_padStart, dec_value_zeros.
  rewrite toString_nonneg, split_decimal by exact n_nonneg.
  destruct (digits_le_spec _ n (fuel_enough n n_nonneg)) as [Hv Hf].
  destruct (dec_value_rev _ Hf) as [-> _]. exact Hv.
Qed.

Lemma padded_nonempty : split (padded k n) <> nil.
Proof.
  unfold padded. rewrite split_padStart.
  rewrite toString_nonneg, split_decimal by exact n_nonneg.
  cbn [digits_le map rev]. intros H. apply app_eq_nil in H.
  destruct H as [_ H]. apply app_eq_nil in H. destruct H as [_ H].
  discriminate H.
Qed.

Lemma parseInt_padded : parseInt (padded k n) = Num n.
Proof.
  rewrite parseInt_digits by (apply padded_nonempty || apply padded_digits).
  f_equal. apply padded_value.
Qed.

Lemma padded_length_fits :
  (1 <= k)%nat -> n < 10 ^ Z.of_nat k -> String.length (padded k n) = k.
Proof.
  intros Hk Hlt. unfold padded. rewrite length_padStart.
  rewrite toString_nonneg, length_decimal by exact n_nonneg.
  pose proof (digits_le_length_upper _ n k (fuel_enough n n_nonneg) Hk Hlt).
  lia.
Qed.

Lemma padded_length_over :
  10 ^ Z.of_nat k <= n -> n < 10 ^ Z.of_nat (S k) ->
  String.length (padded k n) = S k.
Proof.
  intros Hge Hlt. unfold padded. rewrite length_padStart.
  rewrite toString_nonneg, length_decimal by exact n_nonneg.
  pose proof (digits_le_length_lower _ n k (fuel_enough n n_nonneg) Hge).
  pose proof (digits_le_length_upper _ n (S k) (fuel_enough n n_nonneg)
                ltac:(lia) Hlt).
  lia.
Qed.

Lemma padded_length_longer :
  10 ^ Z.of_nat k <= n -> (k < String.length (padded k n))%nat.
Proof.
  intros Hge. unfold padded. rewrite length_padStart.
  rewrite toString_nonneg, length_decimal by exact n_nonneg.
  pose proof (digits_le_length_lower _ n k (fuel_enough n n_nonneg) Hge).
  lia.
Qed.

End Padded.

Lemma padded_inj (k : nat) (a b : Z) :
  0 <= a -> 0 <= b -> padded k a = padded k b -> a = b.
Proof.
  intros Ha Hb E.
  rewrite <- (padded_value k a Ha), <- (padded_value k b Hb), E. reflexivity.
Qed.

(** ** The loop *)

Lemma fold_push {A B : Type} (f : A -> B) (l : list A) (acc : list B) :
  fold_left (fun codes i => push codes (f i)) l acc = (acc ++ map f l)%list.
Proof.
  revert acc. induction l as [|x l IH]; intros acc; cbn [fold_left map].
  - rewrite app_nil_r. reflexivity.
  - rewrite IH. unfold push. rewrite <- app_assoc. reflexivity.
Qed.

Lemma generate_codes_map (n q : Z) :
  generate_codes (Num n) (Num q)
  = map (fun i => entry_of (n + Z.of_nat i)) (seq 0 (Z.to_nat q)).
Proof.
  unfold generate_codes, loop_indices.
  rewrite (fold_push (fun i => entry_of (n + i))). cbn [app].
  rewrite map_map. reflexivity.
Qed.

Lemma generate_codes_length (n q : Z) :
  List.length (generate_codes (Num n) (Num q)) = Z.to_nat q.
Proof. rewrite generate_codes_map, length_map, length_seq. reflexivity. Qed.

Lemma generate_codes_nth (n q : Z) (i : nat) :
  (i < Z.to_nat q)%nat ->
  nth_error (generate_codes (Num n) (Num q)) i
  = Some (entry_of (n + Z.of_nat i)).
Proof.
  intros Hi. rewrite generate_codes_map.
  rewrite nth_error_map, nth_error_seq.
  destruct (Nat.ltb_spec i (Z.to_nat q)); [reflexivity|lia].
Qed.

Lemma generate_codes_last (n q : Z) :
  1 <= q ->
  last_code (generate_codes (Num n) (Num q)) = Some (entry_of (n + q - 1)).
Proof.
  intros Hq. unfold last_code. rewrite generate_codes_length.
  rewrite generate_codes_nth by lia. do 2 f_equal. lia.
Qed.

Lemma bad_quantity_false (q : Z) :
  1 <= q <= 1000 -> bad_quantity (Num q) = false.
Proof.
  intros H. unfold bad_quantity, gt, lt, isNaN. cbn [orb].
  destruct (q <? 1) eqn:E1; [apply Z.ltb_lt in E1; lia|].
  destruct (1000 <? q) eqn:E2; [apply Z.ltb_lt in E2; lia|]. reflexivity.
Qed.

Lemma bad_quantity_true (qty : number) :
  (forall q, qty = Num q -> q < 1 \/ 1000 < q) -> bad_quantity qty = true.
Proof.
  intros H. destruct qty as [|q]; [reflexivity|].
  unfold bad_quantity, gt, lt, isNaN. cbn [orb]. apply orb_true_iff.
  destruct (H q eq_refl); [left|right]; apply Z.ltb_lt; assumption.
Qed.

Lemma is_base_code_spec (s : string) :
  is_base_code s = true ->
  String.length s = 12%nat /\ all_digits s = true /\
  parseInt s = Num (numeric_value s) /\ 0 <= numeric_value s.
Proof.
  unfold is_base_code. intros H. apply andb_true_iff in H.
  destruct H as [Hl Hd]. apply Nat.eqb_eq in Hl.
  assert (Hne : split s <> []).
  { intros E. apply (f_equal (@List.length _)) in E.
    rewrite length_split, Hl in E. discriminate E. }
  split; [exact Hl|]. split.
  - unfold all_digits. destruct (split s); [contradiction|exact Hd].
  - split; [apply parseInt_digits; assumption|].
    unfold numeric_value, dec_value.
    assert (G : forall cs acc, forallb is_digit cs = true -> 0 <= acc ->
                0 <= fold_left (fun a c => a * 10 + digit_val c) cs acc).
    { induction cs as [|c cs IH]; intros acc Hc Ha; [exact Ha|].
      cbn [forallb] in Hc. apply andb_true_iff in Hc. destruct Hc as [Hc Hcs].
      cbn [fold_left]. apply IH; [exact Hcs|].
      pose proof (is_digit_bounds c Hc). lia. }
    apply G; [exact Hd|lia].
Qed.

Lemma base_of_is_base_code (n : Z) :
  0 <= n <= 999999999999 -> is_base_code (base_of n) = true.
Proof.
  intros H. unfold is_base_code, base_of.
  rewrite padded_length_fits, padded_digits by (cbn; lia). reflexivity.
Qed.

(** The loop meets the specification of a batch whenever the numbers fit
    in 12 digits. *)
Lemma generate_codes_is_batch (n q : Z) :
  0 <= n -> n + q - 1 <= 999999999999 ->
  is_batch n q (generate_codes (Num n) (Num q)).
Proof.
  intros Hn Hfit. split; [apply generate_codes_length|]. split.
  - intros i Hi. exists (entry_of (n + i)). split.
    + rewrite generate_codes_nth by lia. do 2 f_equal. lia.
    + cbn [entry_of Ean.baseCode Ean.code].
      split; [apply base_of_is_base_code; lia|].
      split; [apply padded_value; lia|reflexivity].
  - intros i j ei ej Hij Hi Hj.
    assert (Hj' : (j < Z.to_nat q)%nat).
    { rewrite <- (generate_codes_length n q). apply nth_error_Some.
      congruence. }
    rewrite generate_codes_nth in Hi, Hj by lia.
    injection Hi as <-. injection Hj as <-.
    cbn [entry_of Ean.baseCode]. unfold base_of.
    rewrite !padded_value by lia. lia.
Qed.

Lemma FreeBase_generateEans_ok (s : FreeBase.State) (q : Z) :
  is_base_code (FreeBase.baseCode s) = true ->
  parseInt (FreeBase.quantity s) = Num q -> 1 <= q <= 1000 ->
  let n := numeric_value (FreeBase.baseCode s) in
  FreeBase.generateEans s =
    {| FreeBase.baseCode := FreeBase.baseCode s;
       FreeBase.quantity := FreeBase.quantity s;
       FreeBase.lastBaseCode := base_of (n + q - 1);
       FreeBase.localStorage := Some (base_of (n + q - 1));
       FreeBase.generatedCodes := generate_codes (Num n) (Num q);
       FreeBase.toasts :=
         (FreeBase.toasts s ++
          [toast_success
             (toString (Num q)
              ++ " código(s) EAN-13 gerado(s) com sucesso!")])%list |}.
Proof.
  intros Hb Hq Hr n.
  destruct (is_base_code_spec _ Hb) as (Hl & Hd & Hp & _).
  unfold FreeBase.generateEans.
  rewrite Hl, Hd, Hq, Hp. cbn [Nat.eqb negb].
  rewrite bad_quantity_false by exact Hr.
  fold n. rewrite generate_codes_last by lia. reflexivity.
Qed.

Lemma Saved_generated_codes (f : option Saved.fault) (s : Saved.State)
      (sel : Saved.SavedEanBase) (u : string) (n q : Z) :
  Saved.selectedBase s = Some sel -> Saved.user s = Some u ->
  parseInt (Saved.last_base_code sel) = Num n ->
  parseInt (Saved.quantity s) = Num q -> 1 <= q <= 1000 ->
  Saved.generatedCodes (Saved.generateEans f s)
  = generate_codes (Num n) (Num q).
Proof.
  intros Hs Hu Hn Hq Hr. unfold Saved.generateEans.
  rewrite Hs, Hu, Hq, Hn, bad_quantity_false by exact Hr.
  rewrite generate_codes_last by lia. reflexivity.
Qed.

(** ** The batch *)

(** C2: for every valid 12-digit startBase and every quantity q with
    1 <= q <= 1000 such that startBase + q - 1 still has 12 digits, the
    generation loop of the free-base and of the saved-bases revision
    produces exactly q pairs; the i-th base code is the zero-padded 12-digit
    decimal string of startBase + i, its full code is the base code
    followed by calculateEanCheckDigit of it, and base codes ascend
    strictly. *)
Theorem generation_loop_batch (startBase : string) (q : Z) :
  is_base_code startBase = true ->
  1 <= q <= 1000 ->
  numeric_value startBase + q - 1 <= 999999999999 ->
  exists codes,
    is_batch (numeric_value startBase) q codes /\
    (forall s, FreeBase.baseCode s = startBase ->
               parseInt (FreeBase.quantity s) = Num q ->
               FreeBase.generatedCodes (FreeBase.generateEans s) = codes) /\
    (forall f s sel u,
        Saved.selectedBase s = Some sel -> Saved.user s = Some u ->
        Saved.last_base_code sel = startBase ->
        parseInt (Saved.quantity s) = Num q ->
        Saved.generatedCodes (Saved.generateEans f s) = codes).
Proof.
  intros Hb Hq Hfit.
  destruct (is_base_code_spec _ Hb) as (_ & _ & Hp & Hn).
  exists (generate_codes (Num (numeric_value startBase)) (Num q)).
  split; [apply generate_codes_is_batch; assumption|]. split.
  - intros s <- Hqs. rewrite (FreeBase_generateEans_ok s q) by assumption.
    reflexivity.
  - intros f s sel u Hs Hu <- Hqs.
    apply (Saved_generated_codes f s sel u); assumption.
Qed.

Lemma generation_loop_batch_witness :
  let s := FreeBase.setQuantity "10"
             (FreeBase.setBaseCode "789428216684" (FreeBase.init None)) in
  let sel := {| Saved.id := "b1"; Saved.name := "Loja X";
                Saved.cnpj_prefix := "42821";
                Saved.last_base_code := "789428216684" |} in
  let t := {| Saved.user := Some "u1"; Saved.savedBases := [sel];
              Saved.selectedBase := Some sel; Saved.quantity := "10";
              Saved.generatedCodes := []; Saved.toasts := [];
              Saved.table := [sel] |} in
  is_batch (numeric_value "789428216684") 10
    (FreeBase.generatedCodes (FreeBase.generateEans s)) /\
  Saved.generatedCodes (Saved.generateEans None t)
  = FreeBase.generatedCodes (FreeBase.generateEans s) /\
  base_codes (FreeBase.generatedCodes (FreeBase.generateEans s))
  = ["789428216684"; "789428216685"; "789428216686"; "789428216687";
     "789428216688"; "789428216689"; "789428216690"; "789428216691";
     "789428216692"; "789428216693"] /\
  map Ean.code (FreeBase.generatedCodes (FreeBase.generateEans s))
  = ["7894282166843"; "7894282166850"; "7894282166867"; "7894282166874";
     "7894282166881"; "7894282166898"; "7894282166904"; "7894282166911";
     "7894282166928"; "7894282166935"] /\
  FreeBase.toasts (FreeBase.generateEans s)
  = [toast_success "10 código(s) EAN-13 gerado(s) com sucesso!"].
Proof.
  intros s sel t.
  destruct (generation_loop_batch "789428216684" 10)
    as (codes & Hb & Hf & Hs).
  - reflexivity.
  - lia.
  - vm_compute. discriminate.
  - rewrite (Hf s eq_refl eq_refl).
    rewrite (Hs None t sel "u1" eq_refl eq_refl eq_refl eq_refl).
    split; [exact Hb|]. split; [reflexivity|].
    rewrite <- (Hf s eq_refl eq_refl).
    vm_compute. repeat split.
Defined.

(** ** The saved-bases revision, step by step *)

Lemma nextBaseCode_of_base (m : Z) :
  0 <= m -> Saved.nextBaseCode_of (base_of m) = base_of (m + 1).
Proof.
  intros Hm. unfold Saved.nextBaseCode_of, base_of.
  rewrite parseInt_padded by exact Hm. reflexivity.
Qed.

(** [generateEans] past its guards: the batch, then the write, then the
    two state updates. *)
Lemma Saved_generateEans_run (f : option Saved.fault) (s : Saved.State)
      (sel : Saved.SavedEanBase) (u : string) (n q : Z) :
  Saved.selectedBase s = Some sel -> Saved.user s = Some u ->
  parseInt (Saved.last_base_code sel) = Num n -> 0 <= n ->
  parseInt (Saved.quantity s) = Num q -> 1 <= q <= 1000 ->
  Saved.generateEans f s =
    Saved.notify
      (toast_success (toString (Num q) ++ " código(s) EAN-13 gerado(s)!"))
      (Saved.setGeneratedCodes (generate_codes (Num n) (Num q))
         match Saved.update_last_base_code f (Saved.id sel)
                 (base_of (n + q)) (Saved.table s) with
         | (Saved.update_ok, rows) =>
             Saved.advance sel (base_of (n + q)) rows s
         | (Saved.update_failed, _) =>
             Saved.notify (toast_error "Erro ao salvar último código") s
         end).
Proof.
  intros Hs Hu Hn Hn0 Hq Hr. unfold Saved.generateEans.
  rewrite Hs, Hu, Hq, Hn, bad_quantity_false by exact Hr.
  rewrite generate_codes_last by lia.
  cbn [entry_of Ean.baseCode].
  rewrite nextBaseCode_of_base by lia.
  replace (n + q - 1 + 1) with (n + q) by lia. reflexivity.
Qed.

Lemma update_without_fault (i c : string) (rows : list Saved.SavedEanBase) :
  Saved.last_base_code_format c = true ->
  Saved.update_last_base_code None i c rows
  = (Saved.update_ok,
     map (fun r => if String.eqb (Saved.id r) i
                   then Saved.with_last_base_code r c else r) rows).
Proof.
  intros H. unfold Saved.update_last_base_code. rewrite H.
  rewrite andb_false_r. reflexivity.
Qed.

Lemma update_with_fault (x : Saved.fault) (i c : string)
      (rows : list Saved.SavedEanBase) :
  Saved.update_last_base_code (Some x) i c rows = (Saved.update_failed, rows).
Proof. reflexivity. Qed.


Lemma base_of_format (n : Z) :
  0 <= n <= 999999999999 -> Saved.last_base_code_format (base_of n) = true.
Proof. exact (base_of_is_base_code n). Qed.

(** ** The cursor *)




(** ** A write that fails *)

(** C7, as stated: a cursor write that fails would never be dropped in
    silence.  A write that matches no row (the row was deleted elsewhere,
    or the row policy hides it) stores nothing and comes back without an
    error: the cursor held locally advances to 789428210003 although
    nothing is stored, and the only toast reports success. *)
Lemma unmatched_write_is_silent :
  let sel := {| Saved.id := "b1"; Saved.name := "Loja X";
                Saved.cnpj_prefix := "42821";
                Saved.last_base_code := "789428210001" |} in
  let s := {| Saved.user := Some "u1"; Saved.savedBases := [sel];
              Saved.selectedBase := Some sel; Saved.quantity := "2";
              Saved.generatedCodes := []; Saved.toasts := [];
              Saved.table := [] |} in
  let s' := Saved.generateEans None s in
  Saved.stored_cursor "b1" s' = None /\
  Saved.table s' = [] /\
  option_map Saved.last_base_code (Saved.selectedBase s')
  = Some "789428210003" /\
  map Saved.last_base_code (Saved.savedBases s') = ["789428210003"] /\
  base_codes (Saved.generatedCodes s') = ["789428210001"; "789428210002"] /\
  Saved.toasts s' = [toast_success "2 código(s) EAN-13 gerado(s)!"].
Proof. vm_compute. repeat split. Qed.

(** C7, amended: when the write of the advanced cursor fails with an error
    that reaches the client (an error returned, a call that throws, a value
    refused by the table) after the batch has been computed, the batch is
    still shown, the cursor held locally (the selected base and the list of
    saved bases) and the stored rows stay as they were, and the user gets
    the error toast about the last code not being saved, ahead of the toast
    that reports the batch. *)
Theorem failed_write_is_reported
    (f : option Saved.fault) (s : Saved.State) (sel : Saved.SavedEanBase)
    (u : string) (n q : Z) :
  Saved.selectedBase s = Some sel -> Saved.user s = Some u ->
  parseInt (Saved.last_base_code sel) = Num n -> 0 <= n ->
  parseInt (Saved.quantity s) = Num q -> 1 <= q <= 1000 ->
  fst (Saved.update_last_base_code f (Saved.id sel) (base_of (n + q))
         (Saved.table s)) = Saved.update_failed ->
  let s' := Saved.generateEans f s in
  Saved.generatedCodes s' = generate_codes (Num n) (Num q) /\
  List.length (Saved.generatedCodes s') = Z.to_nat q /\
  Saved.selectedBase s' = Saved.selectedBase s /\
  Saved.savedBases s' = Saved.savedBases s /\
  Saved.table s' = Saved.table s /\
  Saved.toasts s' =
    (Saved.toasts s ++
     [toast_error "Erro ao salvar último código";
      toast_success (toString (Num q) ++ " código(s) EAN-13 gerado(s)!")])%list.
Proof.
  intros Hs Hu Hn Hn0 Hq Hr Hw s'. subst s'.
  rewrite (Saved_generateEans_run f s sel u n q) by assumption.
  destruct (Saved.update_last_base_code f (Saved.id sel) (base_of (n + q))
              (Saved.table s)) as [[|] rows]; [discriminate Hw|].
  cbn [Saved.notify Saved.setGeneratedCodes Saved.generatedCodes
       Saved.selectedBase Saved.savedBases Saved.table Saved.toasts].
  rewrite generate_codes_length, <- app_assoc. repeat split; reflexivity.
Qed.

Lemma failed_write_is_reported_witness :
  let sel := {| Saved.id := "b1"; Saved.name := "Loja X";
                Saved.cnpj_prefix := "42821";
                Saved.last_base_code := "789428210001" |} in
  let s := {| Saved.user := Some "u1"; Saved.savedBases := [sel];
              Saved.selectedBase := Some sel; Saved.quantity := "2";
              Saved.generatedCodes := []; Saved.toasts := [];
              Saved.table := [sel] |} in
  let s' := Saved.generateEans (Some Saved.error_returned) s in
  Saved.generatedCodes s' = generate_codes (Num 789428210001) (Num 2) /\
  List.length (Saved.generatedCodes s') = Z.to_nat 2 /\
  Saved.selectedBase s' = Saved.selectedBase s /\
  Saved.savedBases s' = Saved.savedBases s /\
  Saved.table s' = Saved.table s /\
  Saved.toasts s' =
    (Saved.toasts s ++
     [toast_error "Erro ao salvar último código";
      toast_success (toString (Num 2) ++ " código(s) EAN-13 gerado(s)!")])%list.
Proof.
  intros sel s.
  apply (failed_write_is_reported (Some Saved.error_returned) s sel "u1"
           789428210001 2); try reflexivity; lia.
Defined.

(** ** Two batches in a row *)

Lemma map_seq_from {A : Type} (g : nat -> A) (a len : nat) :
  map g (seq a len) = map (fun i => g (a + i)%nat) (seq 0 len).
Proof.
  revert a g. induction len as [|len IH]; intros a g; [reflexivity|].
  cbn [seq map]. rewrite Nat.add_0_r. f_equal.
  rewrite (IH (S a)), (IH 1%nat). apply map_ext. intros i.
  f_equal. lia.
Qed.

Lemma run_app (n a b : Z) :
  0 <= a -> 0 <= b -> run n (a + b) = (run n a ++ run (n + a) b)%list.
Proof.
  intros Ha Hb. unfold run.
  rewrite Z2Nat.inj_add, seq_app, map_app by assumption. f_equal.
  cbn [Nat.add]. rewrite map_seq_from. apply map_ext. intros i.
  f_equal. lia.
Qed.

Lemma run_NoDup (n len : Z) : 0 <= n -> NoDup (run n len).
Proof.
  intros Hn. unfold run. apply NoDup_map_NoDup_ForallPairs.
  - intros i j _ _ E. apply padded_inj in E; lia.
  - apply seq_NoDup.
Qed.

Lemma base_codes_generate (n q : Z) :
  base_codes (generate_codes (Num n) (Num q)) = run n q.
Proof.
  unfold base_codes, run. rewrite generate_codes_map, map_map. reflexivity.
Qed.

Lemma NoDup_app_disjoint {A : Type} (l1 l2 : list A) :
  NoDup (l1 ++ l2) -> forall a, In a l1 -> ~ In a l2.
Proof.
  induction l1 as [|x l1 IH]; intros H a Hin; [contradiction|].
  cbn in H. inversion H as [|? ? Hx Hnd]; subst.
  destruct Hin as [->|Hin].
  - intros H2. apply Hx. apply in_or_app. right. exact H2.
  - apply IH; assumption.
Qed.

(** When its write goes through, the component itself sets up the second
    call: the selected base then carries the first call's nextBaseCode. *)
Lemma Saved_advances_to_next (s : Saved.State) (sel : Saved.SavedEanBase)
      (u : string) (n q : Z) :
  Saved.selectedBase s = Some sel -> Saved.user s = Some u ->
  parseInt (Saved.last_base_code sel) = Num n -> 0 <= n ->
  parseInt (Saved.quantity s) = Num q -> 1 <= q <= 1000 ->
  n + q <= 999999999999 ->
  Saved.selectedBase (Saved.generateEans None s)
  = Some (Saved.with_last_base_code sel (base_of (n + q))).
Proof.
  intros Hs Hu Hn Hn0 Hq Hr Hfit.
  rewrite (Saved_generateEans_run None s sel u n q) by assumption.
  rewrite update_without_fault by (apply base_of_format; lia).
  reflexivity.
Qed.

(** C5: for every valid startBase and valid quantities q1 and q2, when the
    batch generation is invoked a second time on a selected base whose code
    is the first call's nextBaseCode, the base codes of the second batch
    are disjoint from those of the first, and the two batches one after the
    other are exactly the contiguous ascending run of base codes from
    startBase to startBase + q1 + q2 - 1.  The component reaches such a
    second call by itself whenever its first write goes through. *)
Theorem consecutive_batches
    (startBase : string) (q1 q2 : Z) (f1 f2 : option Saved.fault)
    (s t : Saved.State) (sel sel' : Saved.SavedEanBase) (u u' : string) :
  is_base_code startBase = true ->
  1 <= q1 <= 1000 -> 1 <= q2 <= 1000 ->
  Saved.selectedBase s = Some sel -> Saved.user s = Some u ->
  Saved.last_base_code sel = startBase ->
  parseInt (Saved.quantity s) = Num q1 ->
  Saved.selectedBase t = Some sel' -> Saved.user t = Some u' ->
  option_map (fun e => Saved.nextBaseCode_of (Ean.baseCode e))
             (last_code (Saved.generatedCodes (Saved.generateEans f1 s)))
  = Some (Saved.last_base_code sel') ->
  parseInt (Saved.quantity t) = Num q2 ->
  let n := numeric_value startBase in
  let batch1 := base_codes (Saved.generatedCodes (Saved.generateEans f1 s)) in
  let batch2 := base_codes (Saved.generatedCodes (Saved.generateEans f2 t)) in
  batch1 = run n q1 /\
  batch2 = run (n + q1) q2 /\
  (batch1 ++ batch2)%list = run n (q1 + q2) /\
  NoDup (batch1 ++ batch2) /\
  (forall b, In b batch1 -> ~ In b batch2) /\
  (f1 = None -> n + q1 <= 999999999999 ->
   forall quantity2,
     option_map Saved.last_base_code
       (Saved.selectedBase
          (Saved.setQuantity quantity2 (Saved.generateEans f1 s)))
     = option_map (fun e => Saved.nextBaseCode_of (Ean.baseCode e))
         (last_code (Saved.generatedCodes (Saved.generateEans f1 s)))).
Proof.
  intros Hb Hq1 Hq2 Hs Hu Hl Hqs Ht Hu' Hnext Hqt n batch1 batch2.
  destruct (is_base_code_spec _ Hb) as (_ & _ & Hp & Hn). fold n in Hp, Hn.
  rewrite <- Hl in Hp.
  assert (G1 : Saved.generatedCodes (Saved.generateEans f1 s)
               = generate_codes (Num n) (Num q1))
    by (apply (Saved_generated_codes f1 s sel u); assumption).
  assert (N1 : option_map (fun e => Saved.nextBaseCode_of (Ean.baseCode e))
                 (last_code (Saved.generatedCodes (Saved.generateEans f1 s)))
               = Some (base_of (n + q1))).
  { rewrite G1, generate_codes_last by lia.
    cbn [option_map entry_of Ean.baseCode].
    rewrite nextBaseCode_of_base by lia. do 2 f_equal. lia. }
  assert (B1 : batch1 = run n q1)
    by (unfold batch1; rewrite G1; apply base_codes_generate).
  assert (B2 : batch2 = run (n + q1) q2).
  { unfold batch2.
    rewrite (Saved_generated_codes f2 t sel' u' (n + q1) q2);
      try assumption; [apply base_codes_generate|].
    rewrite N1 in Hnext. injection Hnext as <-.
    apply parseInt_padded. lia. }
  assert (R : (batch1 ++ batch2)%list = run n (q1 + q2))
    by (rewrite B1, B2, run_app by lia; reflexivity).
  assert (ND : NoDup (batch1 ++ batch2))
    by (rewrite R; apply run_NoDup; exact Hn).
  split; [exact B1|]. split; [exact B2|]. split; [exact R|].
  split; [exact ND|]. split; [apply NoDup_app_disjoint; exact ND|].
  intros -> Hfit quantity2. rewrite N1.
  cbn [Saved.setQuantity Saved.selectedBase].
  rewrite (Saved_advances_to_next s sel u n q1) by assumption.
  reflexivity.
Qed.

Lemma consecutive_batches_witness :
  let sel := {| Saved.id := "b1"; Saved.name := "Loja X";
                Saved.cnpj_prefix := "42821";
                Saved.last_base_code := "789428210001" |} in
  let s := {| Saved.user := Some "u1"; Saved.savedBases := [sel];
              Saved.selectedBase := Some sel; Saved.quantity := "2";
              Saved.generatedCodes := []; Saved.toasts := [];
              Saved.table := [sel] |} in
  let t := Saved.setQuantity "3" (Saved.generateEans None s) in
  let n := numeric_value "789428210001" in
  let batch1 := base_codes (Saved.generatedCodes (Saved.generateEans None s)) in
  let batch2 := base_codes (Saved.generatedCodes (Saved.generateEans None t)) in
  batch1 = run n 2 /\
  batch2 = run (n + 2) 3 /\
  (batch1 ++ batch2)%list = run n (2 + 3) /\
  NoDup (batch1 ++ batch2) /\
  (forall b, In b batch1 -> ~ In b batch2) /\
  (@None Saved.fault = None -> n + 2 <= 999999999999 ->
   forall quantity2,
     option_map Saved.last_base_code
       (Saved.selectedBase
          (Saved.setQuantity quantity2 (Saved.generateEans None s)))
     = option_map (fun e => Saved.nextBaseCode_of (Ean.baseCode e))
         (last_code (Saved.generatedCodes (Saved.generateEans None s)))).
Proof.
  intros sel s t.
  apply (consecutive_batches "789428210001" 2 3 None None s t sel
           (Saved.with_last_base_code sel "789428210003") "u1" "u1");
    try reflexivity; lia.
Defined.

Example consecutive_batches_example :
  let sel := {| Saved.id := "b1"; Saved.name := "Loja X";
                Saved.cnpj_prefix := "42821";
                Saved.last_base_code := "789428210001" |} in
  let s := {| Saved.user := Some "u1"; Saved.savedBases := [sel];
              Saved.selectedBase := Some sel; Saved.quantity := "2";
              Saved.generatedCodes := []; Saved.toasts := [];
              Saved.table := [sel] |} in
  let s1 := Saved.generateEans None s in
  let s2 := Saved.generateEans None (Saved.setQuantity "3" s1) in
  base_codes (Saved.generatedCodes s1) = ["789428210001"; "789428210002"] /\
  Saved.stored_cursor "b1" s1 = Some "789428210003" /\
  base_codes (Saved.generatedCodes s2)
  = ["789428210003"; "789428210004"; "789428210005"] /\
  Saved.stored_cursor "b1" s2 = Some "789428210006".
Proof. vm_compute. repeat split. Qed.

(** ** Rejected requests *)

Lemma FreeBase_rejects (s : FreeBase.State) :
  is_base_code (FreeBase.baseCode s) = false \/
  quantity_out_of_range (FreeBase.quantity s) ->
  exists msg, FreeBase.generateEans s = FreeBase.notify (toast_error msg) s.
Proof.
  intros H. unfold FreeBase.generateEans.
  destruct (Nat.eqb (String.length (FreeBase.baseCode s)) 12) eqn:El;
    cbn [negb]; [|eexists; reflexivity].
  destruct (all_digits (FreeBase.baseCode s)) eqn:Ed;
    cbn [negb]; [|eexists; reflexivity].
  destruct H as [H|H].
  - exfalso. unfold is_base_code in H. rewrite El in H. cbn [andb] in H.
    unfold all_digits in Ed.
    destruct (split (FreeBase.baseCode s)); congruence.
  - rewrite bad_quantity_true by exact H. eexists; reflexivity.
Qed.

Lemma Saved_rejects (f : option Saved.fault) (s : Saved.State)
      (sel : Saved.SavedEanBase) (u : string) :
  Saved.selectedBase s = Some sel -> Saved.user s = Some u ->
  quantity_out_of_range (Saved.quantity s) ->
  Saved.generateEans f s
  = Saved.notify (toast_error "Quantidade deve ser entre 1 e 1000") s.
Proof.
  intros Hs Hu H. unfold Saved.generateEans.
  rewrite Hs, Hu, bad_quantity_true by exact H. reflexivity.
Qed.

(** C4, as stated: after a rejected request the list of generated codes
    would be empty.  A rejected request leaves the list as it was: after
    one code has been generated, asking for 0 or for 1001 codes is
    rejected and the list still holds that code. *)
Lemma rejected_request_keeps_old_codes :
  let s1 := FreeBase.generateEans
              (FreeBase.setQuantity "1"
                 (FreeBase.setBaseCode "000000000000" (FreeBase.init None))) in
  let s2 := FreeBase.generateEans (FreeBase.setQuantity "0" s1) in
  let s3 := FreeBase.generateEans (FreeBase.setQuantity "1001" s1) in
  FreeBase.toasts s2
  = (FreeBase.toasts s1
     ++ [toast_error "Quantidade deve ser entre 1 e 1000"])%list /\
  FreeBase.toasts s3
  = (FreeBase.toasts s1
     ++ [toast_error "Quantidade deve ser entre 1 e 1000"])%list /\
  FreeBase.generatedCodes s2
  = [{| Ean.code := "0000000000000"; Ean.baseCode := "000000000000" |}] /\
  FreeBase.generatedCodes s3
  = [{| Ean.code := "0000000000000"; Ean.baseCode := "000000000000" |}] /\
  FreeBase.generatedCodes s2 <> [] /\ FreeBase.generatedCodes s3 <> [].
Proof. vm_compute. repeat split; discriminate. Qed.

(** C4, amended: in the free-base revision, when the base code is not
    exactly 12 decimal digits or the quantity is no number in 1..1000, and
    in the saved-bases revision, when the quantity is no number in 1..1000,
    generation is rejected with an error toast and produces no codes: the
    list of generated codes and the persisted cursor stay as they were. *)
Theorem rejected_generation_changes_nothing :
  (forall s : FreeBase.State,
      is_base_code (FreeBase.baseCode s) = false \/
      quantity_out_of_range (FreeBase.quantity s) ->
      let s' := FreeBase.generateEans s in
      (exists msg,
          FreeBase.toasts s' = (FreeBase.toasts s ++ [toast_error msg])%list) /\
      FreeBase.generatedCodes s' = FreeBase.generatedCodes s /\
      FreeBase.localStorage s' = FreeBase.localStorage s /\
      FreeBase.lastBaseCode s' = FreeBase.lastBaseCode s) /\
  (forall (f : option Saved.fault) (s : Saved.State) sel u,
      Saved.selectedBase s = Some sel -> Saved.user s = Some u ->
      quantity_out_of_range (Saved.quantity s) ->
      let s' := Saved.generateEans f s in
      Saved.toasts s'
      = (Saved.toasts s
         ++ [toast_error "Quantidade deve ser entre 1 e 1000"])%list /\
      Saved.generatedCodes s' = Saved.generatedCodes s /\
      Saved.table s' = Saved.table s /\
      Saved.selectedBase s' = Saved.selectedBase s /\
      Saved.savedBases s' = Saved.savedBases s).
Proof.
  split.
  - intros s H. destruct (FreeBase_rejects s H) as [msg E].
    cbv zeta. rewrite E. split; [exists msg; reflexivity|].
    repeat split; reflexivity.
  - intros f s sel u Hs Hu H. cbv zeta.
    rewrite (Saved_rejects f s sel u Hs Hu H). repeat split; reflexivity.
Qed.

Lemma rejected_generation_changes_nothing_witness :
  let s := FreeBase.setQuantity "1001"
             (FreeBase.setBaseCode "789428216684" (FreeBase.init None)) in
  let sel := {| Saved.id := "b1"; Saved.name := "Loja X";
                Saved.cnpj_prefix := "42821";
                Saved.last_base_code := "789428210001" |} in
  let t := {| Saved.user := Some "u1"; Saved.savedBases := [sel];
              Saved.selectedBase := Some sel; Saved.quantity := "0";
              Saved.generatedCodes := []; Saved.toasts := [];
              Saved.table := [sel] |} in
  (let s' := FreeBase.generateEans s in
   (exists msg,
       FreeBase.toasts s' = (FreeBase.toasts s ++ [toast_error msg])%list) /\
   FreeBase.generatedCodes s' = FreeBase.generatedCodes s /\
   FreeBase.localStorage s' = FreeBase.localStorage s /\
   FreeBase.lastBaseCode s' = FreeBase.lastBaseCode s) /\
  (let t' := Saved.generateEans None t in
   Saved.toasts t'
   = (Saved.toasts t
      ++ [toast_error "Quantidade deve ser entre 1 e 1000"])%list /\
   Saved.generatedCodes t' = Saved.generatedCodes t /\
   Saved.table t' = Saved.table t /\
   Saved.selectedBase t' = Saved.selectedBase t /\
   Saved.savedBases t' = Saved.savedBases t).
Proof.
  intros s sel t. split.
  - apply (proj1 rejected_generation_changes_nothing s).
    right. intros q H. vm_compute in H. injection H as <-. lia.
  - apply (proj2 rejected_generation_changes_nothing None t sel "u1");
      try reflexivity.
    intros q H. vm_compute in H. injection H as <-. lia.
Defined.

(** ** The prefixed revision *)

Lemma length_append (a b : string) :
  String.length (a ++ b) = (String.length a + String.length b)%nat.
Proof. rewrite <- !length_split, split_app, length_app. reflexivity. Qed.

Lemma Prefixed_generate_codes_map (s : Prefixed.State) (st q : Z) :
  Prefixed.generate_codes s (Num st) (Num q)
  = map (fun i => prefixed_entry (Prefixed.prefix s ++ Prefixed.cnpjDigits s)
                    (st + Z.of_nat i))
        (seq 0 (Z.to_nat q)).
Proof.
  unfold Prefixed.generate_codes, loop_indices.
  rewrite (fold_push
             (fun i => prefixed_entry
                         (Prefixed.prefix s ++ Prefixed.cnpjDigits s)
                         (st + i))).
  cbn [app]. rewrite map_map. reflexivity.
Qed.

Lemma last_code_map_seq (g : nat -> EanCode) (k : nat) :
  (1 <= k)%nat -> last_code (map g (seq 0 k)) = Some (g (k - 1)%nat).
Proof.
  intros Hk. unfold last_code.
  rewrite length_map, length_seq, nth_error_map, nth_error_seq.
  destruct (Nat.ltb_spec (k - 1) k); [reflexivity|lia].
Qed.

Lemma Prefixed_generateEans_ok (s : Prefixed.State) (q st : Z) :
  String.length (Prefixed.cnpjDigits s) = 5%nat ->
  parseInt (Prefixed.quantity s) = Num q -> 1 <= q <= 1000 ->
  Prefixed.startNumber_of s = Num st ->
  let head := Prefixed.prefix s ++ Prefixed.cnpjDigits s in
  Prefixed.generateEans s =
    {| Prefixed.prefix := Prefixed.prefix s;
       Prefixed.cnpjDigits := Prefixed.cnpjDigits s;
       Prefixed.quantity := Prefixed.quantity s;
       Prefixed.lastBaseCode := head ++ padded 4 (st + q - 1);
       Prefixed.localStorage := Some (head ++ padded 4 (st + q - 1));
       Prefixed.generatedCodes :=
         map (fun i => prefixed_entry head (st + Z.of_nat i))
             (seq 0 (Z.to_nat q));
       Prefixed.toasts :=
         (Prefixed.toasts s ++
          [toast_success
             (toString (Num q)
              ++ " código(s) EAN-13 gerado(s) com sucesso!")])%list |}.
Proof.
  intros Hc Hq Hr Hst head. unfold Prefixed.generateEans.
  rewrite Hc, Hq, Hst. cbn [Nat.eqb negb].
  rewrite bad_quantity_false by exact Hr.
  rewrite Prefixed_generate_codes_map. fold head.
  rewrite last_code_map_seq by lia.
  cbn [prefixed_entry Ean.baseCode].
  replace (st + Z.of_nat (Z.to_nat q - 1)) with (st + q - 1) by lia.
  reflexivity.
Qed.

Lemma all_digits_spec (s : string) :
  all_digits s = true -> split s <> [] /\ forallb is_digit (split s) = true.
Proof.
  unfold all_digits. destruct (split s); [discriminate|].
  intros H. split; [discriminate|exact H].
Qed.

Lemma startNumber_continues (s : Prefixed.State) (tail : string) :
  String.length (Prefixed.prefix s ++ Prefixed.cnpjDigits s) = 8%nat ->
  substring 0 8 (Prefixed.lastBaseCode s)
  = Prefixed.prefix s ++ Prefixed.cnpjDigits s ->
  slice (Prefixed.lastBaseCode s) 8 12 = tail ->
  all_digits tail = true ->
  Prefixed.startNumber_of s = Num (numeric_value tail + 1).
Proof.
  intros Hlen Hm Ht Hd. unfold Prefixed.startNumber_of.
  assert (Hp : startsWith (Prefixed.lastBaseCode s)
                 (Prefixed.prefix s ++ Prefixed.cnpjDigits s) = true).
  { unfold startsWith. apply prefix_correct. rewrite Hlen. exact Hm. }
  assert (Htr : truthy (Prefixed.lastBaseCode s) = true).
  { destruct (Prefixed.lastBaseCode s); [|reflexivity].
    cbn in Hm. rewrite <- Hm in Hlen. discriminate Hlen. }
  rewrite Htr, Hp, Ht. cbn [andb].
  destruct (all_digits_spec tail Hd) as [Hne Hf].
  rewrite parseInt_digits by assumption. reflexivity.
Qed.

Lemma startNumber_resets (s : Prefixed.State) :
  String.length (Prefixed.prefix s ++ Prefixed.cnpjDigits s) = 8%nat ->
  Prefixed.lastBaseCode s = "" \/
  substring 0 8 (Prefixed.lastBaseCode s)
  <> Prefixed.prefix s ++ Prefixed.cnpjDigits s ->
  Prefixed.startNumber_of s = Num 0.
Proof.
  intros Hlen H. unfold Prefixed.startNumber_of.
  destruct H as [-> | H]; [reflexivity|].
  destruct (startsWith (Prefixed.lastBaseCode s)
              (Prefixed.prefix s ++ Prefixed.cnpjDigits s)) eqn:E.
  - exfalso. apply H. unfold startsWith in E. apply prefix_correct in E.
    rewrite Hlen in E. exact E.
  - rewrite andb_false_r. reflexivity.
Qed.

Lemma substring_app_left (a b : string) :
  substring 0 (String.length a) (a ++ b) = a.
Proof.
  induction a as [|x a IH]; cbn.
  - destruct b; reflexivity.
  - rewrite IH. reflexivity.
Qed.

Lemma substring_app_right (a b : string) :
  substring (String.length a) (String.length b) (a ++ b) = b.
Proof.
  induction a as [|x a IH]; [|exact IH]. cbn [append String.length].
  induction b as [|y b IH]; [reflexivity|]. cbn. rewrite IH. reflexivity.
Qed.

Lemma substring_app_at (a b : string) (n m : nat) :
  String.length a = n -> String.length b = m ->
  substring 0 n (a ++ b) = a /\ substring n m (a ++ b) = b.
Proof.
  intros <- <-. split; [apply substring_app_left|apply substring_app_right].
Qed.

(** C6, as stated: for every persisted cursor whose leading 8 characters
    match, the next tail would be the stored tail plus 1.  After the tail
    9999 the component stores the cursor 7891234510000, whose tail is
    10000; the next call reads four of its five digits and goes on at
    1001, not at 10001. *)
Lemma five_digit_tail_is_cut :
  let s0 := Prefixed.setQuantity "1"
              (Prefixed.setCnpjDigits "12345"
                 (Prefixed.init (Some "789123459999"))) in
  let s := Prefixed.generateEans s0 in
  let head := Prefixed.prefix s ++ Prefixed.cnpjDigits s in
  Prefixed.localStorage s = Some "7891234510000" /\
  Prefixed.lastBaseCode s = head ++ "10000" /\
  substring 0 8 (Prefixed.lastBaseCode s) = head /\
  base_codes (Prefixed.generatedCodes (Prefixed.generateEans s))
  = [head ++ "1001"] /\
  base_codes (Prefixed.generatedCodes (Prefixed.generateEans s))
  <> [head ++ padded 4 (10000 + 1)].
Proof. vm_compute. repeat split. discriminate. Qed.

(** C6, amended: in the prefixed revision, with a 3-character prefix, a
    5-character identifier and a valid quantity: when the cursor is
    prefix ++ identifier followed by a tail of exactly 4 decimal digits
    (what the component stores while tails stay within 9999), the tails of
    the next batch are stored tail + 1, + 2, ...; when the leading 8
    characters of the cursor differ from prefix ++ identifier (identifier
    changed), or the cursor is the empty string of a mount with nothing
    stored, the tails are 0, 1, ... and the first one reads "0000". *)
Theorem tail_continues_or_resets (s : Prefixed.State) (q : Z) :
  String.length (Prefixed.prefix s) = 3%nat ->
  String.length (Prefixed.cnpjDigits s) = 5%nat ->
  parseInt (Prefixed.quantity s) = Num q -> 1 <= q <= 1000 ->
  let head := Prefixed.prefix s ++ Prefixed.cnpjDigits s in
  let cursor := Prefixed.lastBaseCode s in
  let batch := base_codes (Prefixed.generatedCodes (Prefixed.generateEans s)) in
  (forall tail,
      cursor = head ++ tail -> String.length tail = 4%nat ->
      forallb is_digit (split tail) = true ->
      batch = map (fun i => head ++ padded 4 (numeric_value tail + 1
                                               + Z.of_nat i))
                  (seq 0 (Z.to_nat q)) /\
      nth_error batch 0 = Some (head ++ padded 4 (numeric_value tail + 1))) /\
  (cursor = "" \/ substring 0 8 cursor <> head ->
   batch = map (fun i => head ++ padded 4 (Z.of_nat i)) (seq 0 (Z.to_nat q))
   /\ nth_error batch 0 = Some (head ++ "0000")) /\
  Prefixed.lastBaseCode (Prefixed.init None) = "".
Proof.
  intros Hp Hc Hq Hr head cursor batch.
  assert (Hlen : String.length head = 8%nat)
    by (unfold head; rewrite length_append, Hp, Hc; reflexivity).
  assert (Hb : forall st, Prefixed.startNumber_of s = Num st ->
             batch = map (fun i => head ++ padded 4 (st + Z.of_nat i))
                         (seq 0 (Z.to_nat q))).
  { intros st Hst. unfold batch, base_codes.
    rewrite (Prefixed_generateEans_ok s q st) by assumption.
    cbn [Prefixed.generatedCodes]. rewrite map_map. reflexivity. }
  split; [|split; [|reflexivity]].
  - intros tail Hcur Hl4 Hd.
    assert (Hst : Prefixed.startNumber_of s = Num (numeric_value tail + 1)).
    { apply startNumber_continues.
      - exact Hlen.
      - fold cursor. rewrite Hcur.
        apply (substring_app_at head tail 8 4 Hlen Hl4).
      - unfold slice. fold cursor. rewrite Hcur.
        apply (substring_app_at head tail 8 4 Hlen Hl4).
      - unfold all_digits. destruct (split tail) eqn:E; [|exact Hd].
        apply (f_equal (@List.length _)) in E.
        rewrite length_split, Hl4 in E. discriminate E. }
    rewrite (Hb _ Hst). split; [reflexivity|].
    destruct (Z.to_nat q) eqn:E; [lia|].
    cbn [seq map nth_error]. do 3 f_equal. cbn. lia.
  - intros H. rewrite (Hb _ (startNumber_resets s Hlen H)).
    split; [reflexivity|].
    destruct (Z.to_nat q) eqn:E; [lia|]. reflexivity.
Qed.

Lemma tail_continues_or_resets_witness :
  let s := Prefixed.setQuantity "2"
             (Prefixed.setCnpjDigits "12345"
                (Prefixed.init (Some "789123450041"))) in
  let t := Prefixed.setCnpjDigits "54321" s in
  (base_codes (Prefixed.generatedCodes (Prefixed.generateEans s))
   = map (fun i => "78912345" ++ padded 4 (numeric_value "0041" + 1
                                            + Z.of_nat i))
         (seq 0 (Z.to_nat 2)) /\
   nth_error (base_codes (Prefixed.generatedCodes (Prefixed.generateEans s)))
             0
   = Some ("78912345" ++ padded 4 (numeric_value "0041" + 1))) /\
  (base_codes (Prefixed.generatedCodes (Prefixed.generateEans t))
   = map (fun i => "78954321" ++ padded 4 (Z.of_nat i)) (seq 0 (Z.to_nat 2))
   /\
   nth_error (base_codes (Prefixed.generatedCodes (Prefixed.generateEans t)))
             0
   = Some ("78954321" ++ "0000")) /\
  base_codes (Prefixed.generatedCodes (Prefixed.generateEans s))
  = ["789123450042"; "789123450043"] /\
  base_codes (Prefixed.generatedCodes (Prefixed.generateEans t))
  = ["789543210000"; "789543210001"].
Proof.
  intros s t.
  pose proof (tail_continues_or_resets s 2 eq_refl eq_refl eq_refl
                ltac:(lia)) as Hs.
  pose proof (tail_continues_or_resets t 2 eq_refl eq_refl eq_refl
                ltac:(lia)) as Ht.
  cbv zeta in Hs, Ht.
  destruct Hs as (Hcont & _ & _). destruct Ht as (_ & Hreset & _).
  split; [|split].
  - apply (Hcont "0041"); reflexivity.
  - apply Hreset. right. vm_compute. discriminate.
  - vm_compute. split; reflexivity.
Defined.

Example tail_examples :
  let s := Prefixed.setQuantity "2"
             (Prefixed.setCnpjDigits "12345"
                (Prefixed.init (Some "789123450041"))) in
  let t := Prefixed.setCnpjDigits "54321" s in
  base_codes (Prefixed.generatedCodes (Prefixed.generateEans s))
  = ["789123450042"; "789123450043"] /\
  base_codes (Prefixed.generatedCodes (Prefixed.generateEans t))
  = ["789543210000"; "789543210001"] /\
  Prefixed.localStorage (Prefixed.generateEans t) = Some "789543210001".
Proof. vm_compute. repeat split. Qed.

(** ** Numbers that outgrow their field *)

Lemma toString_nonempty (a : number) : (1 <= String.length (toString a))%nat.
Proof.
  destruct a as [|z]; [cbn; lia|]. unfold toString.
  destruct (z <? 0).
  - cbn [append String.length]. lia.
  - rewrite length_decimal. cbn [digits_le List.length]. lia.
Qed.

Lemma check_digit_nonempty (c : string) :
  (1 <= String.length (calculateEanCheckDigit c))%nat.
Proof. unfold calculateEanCheckDigit. apply toString_nonempty. Qed.

(** C10: overflow of the fixed width is silent.  In the free-base revision,
    when startBase + quantity - 1 exceeds 999999999999, and in the prefixed
    revision, when the last tail exceeds 9999, all the codes asked for are
    produced; every base code whose number exceeds the capacity is longer
    than 12 characters (its tail longer than 4) and its full code longer
    than 13; the last base code, which is such a one, is written to
    localStorage; and the only toast is the one reporting success. *)
Theorem overflow_is_silent :
  (forall (s : FreeBase.State) (q : Z),
      is_base_code (FreeBase.baseCode s) = true ->
      parseInt (FreeBase.quantity s) = Num q -> 1 <= q <= 1000 ->
      999999999999 < numeric_value (FreeBase.baseCode s) + q - 1 ->
      let n := numeric_value (FreeBase.baseCode s) in
      let s' := FreeBase.generateEans s in
      List.length (FreeBase.generatedCodes s') = Z.to_nat q /\
      (forall i e,
          nth_error (FreeBase.generatedCodes s') i = Some e ->
          999999999999 < n + Z.of_nat i ->
          Ean.baseCode e = padded 12 (n + Z.of_nat i) /\
          (12 < String.length (Ean.baseCode e))%nat /\
          (13 < String.length (Ean.code e))%nat) /\
      (exists c,
          option_map Ean.baseCode (last_code (FreeBase.generatedCodes s'))
          = Some c /\
          FreeBase.localStorage s' = Some c /\
          FreeBase.lastBaseCode s' = c /\
          (12 < String.length c)%nat) /\
      (exists msg,
          FreeBase.toasts s'
          = (FreeBase.toasts s ++ [toast_success msg])%list)) /\
  (forall (s : Prefixed.State) (q st : Z),
      String.length (Prefixed.prefix s) = 3%nat ->
      String.length (Prefixed.cnpjDigits s) = 5%nat ->
      parseInt (Prefixed.quantity s) = Num q -> 1 <= q <= 1000 ->
      Prefixed.startNumber_of s = Num st -> 0 <= st ->
      9999 < st + q - 1 ->
      let head := Prefixed.prefix s ++ Prefixed.cnpjDigits s in
      let s' := Prefixed.generateEans s in
      List.length (Prefixed.generatedCodes s') = Z.to_nat q /\
      (forall i e,
          nth_error (Prefixed.generatedCodes s') i = Some e ->
          9999 < st + Z.of_nat i ->
          Ean.baseCode e = head ++ padded 4 (st + Z.of_nat i) /\
          (4 < String.length (padded 4 (st + Z.of_nat i)))%nat /\
          (12 < String.length (Ean.baseCode e))%nat /\
          (13 < String.length (Ean.code e))%nat) /\
      (exists c,
          option_map Ean.baseCode (last_code (Prefixed.generatedCodes s'))
          = Some c /\
          Prefixed.localStorage s' = Some c /\
          Prefixed.lastBaseCode s' = c /\
          (12 < String.length c)%nat) /\
      (exists msg,
          Prefixed.toasts s'
          = (Prefixed.toasts s ++ [toast_success msg])%list)).
Proof.
  split.
  - intros s q Hb Hq Hr Hov n s'. subst s'.
    destruct (is_base_code_spec _ Hb) as (_ & _ & _ & Hn). fold n in Hn.
    rewrite (FreeBase_generateEans_ok s q) by assumption. fold n.
    cbn [FreeBase.generatedCodes FreeBase.localStorage FreeBase.lastBaseCode
         FreeBase.toasts].
    split; [apply generate_codes_length|]. split; [|split].
    + intros i e He Hi.
      assert (Hlt : (i < Z.to_nat q)%nat).
      { rewrite <- (generate_codes_length n q). apply nth_error_Some.
        congruence. }
      rewrite generate_codes_nth in He by exact Hlt. injection He as <-.
      cbn [entry_of Ean.baseCode Ean.code]. unfold base_of.
      assert (L : (12 < String.length (padded 12 (n + Z.of_nat i)))%nat)
        by (apply padded_length_longer; cbn; lia).
      split; [reflexivity|]. split; [exact L|].
      rewrite length_append.
      pose proof (check_digit_nonempty (padded 12 (n + Z.of_nat i))). lia.
    + exists (base_of (n + q - 1)).
      rewrite generate_codes_last by lia.
      repeat split. unfold base_of. apply padded_length_longer; cbn; lia.
    + eexists. reflexivity.
  - intros s q st Hp Hc Hq Hr Hst Hst0 Hov head s'. subst s'.
    assert (Hlen : String.length head = 8%nat)
      by (unfold head; rewrite length_append, Hp, Hc; reflexivity).
    rewrite (Prefixed_generateEans_ok s q st) by assumption. fold head.
    cbn [Prefixed.generatedCodes Prefixed.localStorage Prefixed.lastBaseCode
         Prefixed.toasts].
    split; [rewrite length_map, length_seq; reflexivity|]. split; [|split].
    + intros i e He Hi.
      rewrite nth_error_map, nth_error_seq in He.
      destruct (Nat.ltb_spec i (Z.to_nat q)) as [Hlt|]; [|discriminate He].
      cbn in He. injection He as <-.
      cbn [prefixed_entry Ean.baseCode Ean.code].
      assert (L : (4 < String.length (padded 4 (st + Z.of_nat i)))%nat)
        by (apply padded_length_longer; cbn; lia).
      split; [reflexivity|]. split; [exact L|].
      rewrite !length_append, Hlen.
      pose proof (check_digit_nonempty (head ++ padded 4 (st + Z.of_nat i))).
      lia.
    + exists (head ++ padded 4 (st + q - 1)).
      rewrite last_code_map_seq by lia.
      cbn [option_map prefixed_entry Ean.baseCode].
      replace (st + Z.of_nat (Z.to_nat q - 1)) with (st + q - 1) by lia.
      repeat split. rewrite length_append, Hlen.
      assert (L : (4 < String.length (padded 4 (st + q - 1)))%nat)
        by (apply padded_length_longer; cbn; lia).
      lia.
    + eexists. reflexivity.
Qed.

Example overflow_examples :
  let s := FreeBase.generateEans
             (FreeBase.setQuantity "2"
                (FreeBase.setBaseCode "999999999999" (FreeBase.init None))) in
  let t := Prefixed.generateEans
             (Prefixed.setQuantity "1"
                (Prefixed.setCnpjDigits "12345"
                   (Prefixed.init (Some "789123459999")))) in
  FreeBase.generatedCodes s
  = [ {| Ean.code := "9999999999994"; Ean.baseCode := "999999999999" |};
      {| Ean.code := "10000000000009"; Ean.baseCode := "1000000000000" |} ] /\
  FreeBase.localStorage s = Some "1000000000000" /\
  Prefixed.generatedCodes t
  = [ {| Ean.code := "78912345100006"; Ean.baseCode := "7891234510000" |} ] /\
  Prefixed.localStorage t = Some "7891234510000".
Proof. vm_compute. repeat split. Qed.

Lemma overflow_is_silent_witness :
  let s := FreeBase.setQuantity "2"
             (FreeBase.setBaseCode "999999999999" (FreeBase.init None)) in
  let t := Prefixed.setQuantity "1"
             (Prefixed.setCnpjDigits "12345"
                (Prefixed.init (Some "789123459999"))) in
  (let n := numeric_value (FreeBase.baseCode s) in
   let s' := FreeBase.generateEans s in
   List.length (FreeBase.generatedCodes s') = Z.to_nat 2 /\
   (forall i e,
       nth_error (FreeBase.generatedCodes s') i = Some e ->
       999999999999 < n + Z.of_nat i ->
       Ean.baseCode e = padded 12 (n + Z.of_nat i) /\
       (12 < String.length (Ean.baseCode e))%nat /\
       (13 < String.length (Ean.code e))%nat) /\
   (exists c,
       option_map Ean.baseCode (last_code (FreeBase.generatedCodes s'))
       = Some c /\
       FreeBase.localStorage s' = Some c /\
       FreeBase.lastBaseCode s' = c /\
       (12 < String.length c)%nat) /\
   (exists msg,
       FreeBase.toasts s'
       = (FreeBase.toasts s ++ [toast_success msg])%list)) /\
  (let head := Prefixed.prefix t ++ Prefixed.cnpjDigits t in
   let t' := Prefixed.generateEans t in
   List.length (Prefixed.generatedCodes t') = Z.to_nat 1 /\
   (forall i e,
       nth_error (Prefixed.generatedCodes t') i = Some e ->
       9999 < 10000 + Z.of_nat i ->
       Ean.baseCode e = head ++ padded 4 (10000 + Z.of_nat i) /\
       (4 < String.length (padded 4 (10000 + Z.of_nat i)))%nat /\
       (12 < String.length (Ean.baseCode e))%nat /\
       (13 < String.length (Ean.code e))%nat) /\
   (exists c,
       option_map Ean.baseCode (last_code (Prefixed.generatedCodes t'))
       = Some c /\
       Prefixed.localStorage t' = Some c /\
       Prefixed.lastBaseCode t' = c /\
       (12 < String.length c)%nat) /\
   (exists msg,
       Prefixed.toasts t'
       = (Prefixed.toasts t ++ [toast_success msg])%list)).
Proof.
  intros s t. split.
  - apply (proj1 overflow_is_silent s 2); try reflexivity; lia.
  - apply (proj2 overflow_is_silent t 1 10000); try reflexivity; lia.
Defined.

(** * Further properties of the components *)

(** ** Strings of digits are determined by length and value *)

Lemma fold_digits_acc (cs : list ascii) (acc : Z) :
  fold_left (fun a c => a * 10 + digit_val c) cs acc
  = acc * 10 ^ Z.of_nat (List.length cs) + dec_value cs.
Proof.
  unfold dec_value. revert acc.
  induction cs as [|c cs IH]; intros acc.
  - cbn. lia.
  - cbn [fold_left List.length]. rewrite IH, (IH (0 * 10 + digit_val c)).
    rewrite Nat2Z.inj_succ, Z.pow_succ_r by lia. lia.
Qed.

Lemma dec_value_cons (c : ascii) (cs : list ascii) :
  dec_value (c :: cs)
  = digit_val c * 10 ^ Z.of_nat (List.length cs) + dec_value cs.
Proof.
  unfold dec_value at 1. cbn [fold_left]. rewrite fold_digits_acc. lia.
Qed.

Lemma dec_value_app (a b : list ascii) :
  dec_value (a ++ b)
  = dec_value a * 10 ^ Z.of_nat (List.length b) + dec_value b.
Proof.
  unfold dec_value at 1. rewrite fold_left_app.
  fold (dec_value a). apply fold_digits_acc.
Qed.

Lemma dec_value_bound (cs : list ascii) :
  forallb is_digit cs = true ->
  0 <= dec_value cs < 10 ^ Z.of_nat (List.length cs).
Proof.
  induction cs as [|c cs IH]; intros H.
  - cbn. lia.
  - cbn [forallb] in H. apply andb_true_iff in H. destruct H as [Hc Hcs].
    specialize (IH Hcs). pose proof (is_digit_bounds c Hc) as Hb.
    rewrite dec_value_cons. cbn [List.length].
    rewrite Nat2Z.inj_succ, Z.pow_succ_r by lia.
    set (p := 10 ^ Z.of_nat (List.length cs)) in *.
    assert (0 <= digit_val c * p) by (apply Z.mul_nonneg_nonneg; lia).
    assert (digit_val c * p <= 9 * p)
      by (apply Z.mul_le_mono_nonneg_r; lia).
    lia.
Qed.

Lemma digit_val_inj (a b : ascii) : digit_val a = digit_val b -> a = b.
Proof.
  unfold digit_val, code_unit. intros H.
  assert (E : N_of_ascii a = N_of_ascii b) by lia.
  rewrite <- (ascii_N_embedding a), <- (ascii_N_embedding b), E.
  reflexivity.
Qed.

Lemma digits_unique (l1 : list ascii) :
  forall l2, List.length l1 = List.length l2 ->
    forallb is_digit l1 = true -> forallb is_digit l2 = true ->
    dec_value l1 = dec_value l2 -> l1 = l2.
Proof.
  induction l1 as [|a l1 IH]; intros [|b l2] Hlen H1 H2 Hv;
    try discriminate Hlen; [reflexivity|].
  cbn [List.length] in Hlen. injection Hlen as Hlen.
  cbn [forallb] in H1, H2.
  apply andb_true_iff in H1. destruct H1 as [Ha H1].
  apply andb_true_iff in H2. destruct H2 as [Hb H2].
  rewrite !dec_value_cons, <- Hlen in Hv.
  pose proof (dec_value_bound l1 H1) as B1.
  pose proof (dec_value_bound l2 H2) as B2. rewrite <- Hlen in B2.
  pose proof (is_digit_bounds a Ha). pose proof (is_digit_bounds b Hb).
  set (p := 10 ^ Z.of_nat (List.length l1)) in *.
  assert (Ed : digit_val a = digit_val b).
  { destruct (Z.lt_trichotomy (digit_val a) (digit_val b)) as [L|[E|L]];
      [exfalso|exact E|exfalso].
    - assert ((digit_val a + 1) * p <= digit_val b * p)
        by (apply Z.mul_le_mono_nonneg_r; lia). lia.
    - assert ((digit_val b + 1) * p <= digit_val a * p)
        by (apply Z.mul_le_mono_nonneg_r; lia). lia. }
  assert (Er : dec_value l1 = dec_value l2) by (rewrite Ed in Hv; lia).
  f_equal; [apply digit_val_inj; exact Ed|].
  apply IH; assumption.
Qed.

Lemma split_inj (a b : string) : split a = split b -> a = b.
Proof.
  unfold split. intros H.
  rewrite <- (string_of_list_ascii_of_string a),
          <- (string_of_list_ascii_of_string b), H.
  reflexivity.
Qed.

(** The only string of [k] decimal digits whose value is [n] is [n]
    printed and padded to [k] places. *)
Lemma padded_unique (k : nat) (s : string) :
  (1 <= k)%nat -> String.length s = k ->
  forallb is_digit (split s) = true ->
  padded k (numeric_value s) = s.
Proof.
  intros Hk Hlen Hd.
  pose proof (dec_value_bound _ Hd) as B. rewrite length_split, Hlen in B.
  fold (numeric_value s) in B.
  apply split_inj. apply digits_unique.
  - rewrite !length_split, Hlen. apply padded_length_fits; lia.
  - apply padded_digits. lia.
  - exact Hd.
  - apply padded_value. unfold numeric_value in B. lia.
Qed.

Lemma numeric_value_app (a b : string) :
  numeric_value (a ++ b)
  = numeric_value a * 10 ^ Z.of_nat (String.length b) + numeric_value b.
Proof.
  unfold numeric_value. rewrite split_app, dec_value_app, length_split.
  reflexivity.
Qed.

Lemma digits_app (a b : string) :
  forallb is_digit (split (a ++ b))
  = forallb is_digit (split a) && forallb is_digit (split b).
Proof. rewrite split_app. apply forallb_app. Qed.

(** ** Every code that is shown is a well-formed EAN-13 code *)

Lemma full_code_valid (B : string) :
  String.length B = 12%nat -> forallb is_digit (split B) = true ->
  is_ean13 (B ++ calculateEanCheckDigit B).
Proof.
  intros Hlen Hf.
  assert (Hd : all_digits B = true).
  { unfold all_digits. destruct (split B) eqn:E; [|exact Hf].
    apply (f_equal (@List.length _)) in E. rewrite length_split, Hlen in E.
    discriminate E. }
  destruct (twelve_digits B Hlen Hd)
    as (z0 & z1 & z2 & z3 & z4 & z5 & z6 & z7 & z8 & z9 & z10 & z11 & E & F).
  repeat match goal with
         | H : Forall _ (_ :: _) |- _ => inversion H; subst; clear H
         end.
  set (s := z0 + z1 * 3 + z2 + z3 * 3 + z4 + z5 * 3 + z6 + z7 * 3
            + z8 + z9 * 3 + z10 + z11 * 3).
  assert (Hs : 0 <= s) by (subst s; lia).
  destruct (check_digit_arith s Hs) as [Hc Hm].
  set (c := Z.rem (10 - Z.rem s 10) 10) in *.
  assert (Ecd : calculateEanCheckDigit B = String (digit_char c) "").
  { unfold calculateEanCheckDigit. rewrite E.
    cbn [fold_left seq map index nth Nat.eqb Nat.modulo Nat.divmod fst snd
         Nat.sub add mul sub rem Z.eqb].
    rewrite !Z.mul_1_r, Z.add_0_l. fold s. fold c.
    apply toString_digit. exact Hc. }
  destruct (is_digit_digit_char c Hc) as [Hic Hvc].
  rewrite Ecd. split; [|split].
  - rewrite length_append, Hlen. reflexivity.
  - rewrite digits_app, Hf. cbn. rewrite Hic. reflexivity.
  - exists (s + c). split; [|exact Hm].
    unfold ean13_weighted_sum. rewrite split_app, map_app, E.
    unfold split. cbn [list_ascii_of_string map app].
    rewrite Number_digit, Hvc by exact Hic.
    cbn [fold_left seq index nth Nat.odd Nat.even negb add mul].
    rewrite !Z.mul_1_r, Z.add_0_l. reflexivity.
Qed.

Lemma prefix_app (a b : string) : String.prefix a (a ++ b) = true.
Proof.
  induction a as [|c a IH]; cbn.
  - destruct b; reflexivity.
  - destruct (ascii_dec c c) as [_|N]; [exact IH|contradiction].
Qed.

Lemma substring_head (a b : string) :
  substring 0 (String.length a) (a ++ b) = a.
Proof. apply prefix_correct, prefix_app. Qed.

Lemma substring_tail (a b : string) (m : nat) :
  substring (String.length a) m (a ++ b) = substring 0 m b.
Proof. induction a as [|c a IH]; [reflexivity|exact IH]. Qed.

Lemma substring_all (b : string) : substring 0 (String.length b) b = b.
Proof.
  induction b as [|c b IH]; [reflexivity|]. cbn. rewrite IH. reflexivity.
Qed.

Lemma substring_head_at (a b : string) (n : nat) :
  String.length a = n -> substring 0 n (a ++ b) = a.
Proof. intros <-. apply substring_head. Qed.

Lemma substring_tail_at (a b : string) (n m : nat) :
  String.length a = n -> String.length b = m ->
  substring n m (a ++ b) = b.
Proof. intros <- <-. rewrite substring_tail. apply substring_all. Qed.

(** X1: as long as the numbers fit in 12 digits, every code that the loop
    of the free-base and saved-bases revisions produces is a well-formed
    EAN-13 code. *)
Theorem batch_codes_are_ean13 (startBase : string) (q : Z) (e : EanCode) :
  is_base_code startBase = true ->
  numeric_value startBase + q - 1 <= 999999999999 ->
  In e (generate_codes (parseInt startBase) (Num q)) ->
  is_ean13 (Ean.code e).
Proof.
  intros Hb Hfit Hin.
  destruct (is_base_code_spec _ Hb) as (_ & _ & Hp & Hn).
  rewrite Hp, generate_codes_map in Hin.
  apply in_map_iff in Hin. destruct Hin as (i & <- & Hi).
  apply in_seq in Hi. cbn [entry_of Ean.code].
  assert (Hbase : is_base_code
                    (base_of (numeric_value startBase + Z.of_nat i)) = true)
    by (apply base_of_is_base_code; lia).
  unfold is_base_code in Hbase. apply andb_true_iff in Hbase.
  destruct Hbase as [Hl Hd]. apply Nat.eqb_eq in Hl.
  apply full_code_valid; assumption.
Qed.

Lemma batch_codes_are_ean13_witness :
  is_ean13 "7894282166843".
Proof.
  apply (batch_codes_are_ean13 "789428216684" 3
           {| Ean.code := "7894282166843"; Ean.baseCode := "789428216684" |}).
  - reflexivity.
  - vm_compute. discriminate.
  - vm_compute. left. reflexivity.
Defined.

(** X2: in the prefixed revision, with a prefix of 3 digits, 5 CNPJ digits
    and tails that stay within 9999, every code is a well-formed EAN-13
    code whose base code keeps the configured head. *)
Theorem prefixed_codes_are_ean13 (s : Prefixed.State) (q st : Z) (e : EanCode) :
  String.length (Prefixed.prefix s) = 3%nat ->
  forallb is_digit (split (Prefixed.prefix s)) = true ->
  String.length (Prefixed.cnpjDigits s) = 5%nat ->
  forallb is_digit (split (Prefixed.cnpjDigits s)) = true ->
  parseInt (Prefixed.quantity s) = Num q -> 1 <= q <= 1000 ->
  Prefixed.startNumber_of s = Num st -> 0 <= st -> st + q - 1 <= 9999 ->
  In e (Prefixed.generatedCodes (Prefixed.generateEans s)) ->
  is_ean13 (Ean.code e) /\
  String.length (Ean.baseCode e) = 12%nat /\
  substring 0 8 (Ean.baseCode e)
  = Prefixed.prefix s ++ Prefixed.cnpjDigits s.
Proof.
  intros Hp Hpd Hc Hcd Hq Hr Hst Hst0 Hfit Hin.
  rewrite (Prefixed_generateEans_ok s q st) in Hin by assumption.
  cbn [Prefixed.generatedCodes] in Hin.
  apply in_map_iff in Hin. destruct Hin as (i & <- & Hi).
  apply in_seq in Hi. cbn [prefixed_entry Ean.code Ean.baseCode].
  set (head := Prefixed.prefix s ++ Prefixed.cnpjDigits s).
  set (tail := padded 4 (st + Z.of_nat i)).
  assert (Hlh : String.length head = 8%nat)
    by (unfold head; rewrite length_append, Hp, Hc; reflexivity).
  assert (Hlt : String.length tail = 4%nat)
    by (apply padded_length_fits; cbn; lia).
  assert (Hl : String.length (head ++ tail) = 12%nat)
    by (rewrite length_append, Hlh, Hlt; reflexivity).
  split; [|split; [exact Hl|]].
  - apply full_code_valid; [exact Hl|].
    rewrite digits_app. unfold head at 1. rewrite digits_app, Hpd, Hcd.
    apply padded_digits. lia.
  - apply substring_head_at. exact Hlh.
Qed.

Lemma prefixed_codes_are_ean13_witness :
  let s := Prefixed.setQuantity "2"
             (Prefixed.setCnpjDigits "12345"
                (Prefixed.init (Some "789123450041"))) in
  is_ean13 "7891234500427" /\
  String.length "789123450042" = 12%nat /\
  substring 0 8 "789123450042"
  = Prefixed.prefix s ++ Prefixed.cnpjDigits s.
Proof.
  intros s.
  apply (prefixed_codes_are_ean13 s 2 42
           {| Ean.code := "7891234500427"; Ean.baseCode := "789123450042" |});
    try reflexivity; try lia.
  vm_compute. left. reflexivity.
Defined.

(** ** The prefixed revision across batches *)

Lemma append_inv_head (a b c : string) : a ++ b = a ++ c -> b = c.
Proof.
  induction a as [|x a IH]; intros H; [exact H|].
  cbn in H. injection H as H. apply IH. exact H.
Qed.

Lemma padStart_long (s : string) (k : nat) (c : ascii) :
  (k <= String.length s)%nat -> padStart s k c = s.
Proof.
  intros H. unfold padStart.
  replace (k - String.length s)%nat with 0%nat by lia. reflexivity.
Qed.

Lemma padded_all_digits (k : nat) (n : Z) :
  0 <= n -> all_digits (padded k n) = true.
Proof.
  intros Hn. unfold all_digits.
  pose proof (padded_nonempty k n Hn) as Hne.
  destruct (split (padded k n)) eqn:E; [contradiction|].
  rewrite <- E. apply padded_digits. exact Hn.
Qed.

(** The cursor that a batch leaves behind, read back by the next call. *)
Lemma startNumber_after (t : Prefixed.State) (L : Z) :
  String.length (Prefixed.prefix t ++ Prefixed.cnpjDigits t) = 8%nat ->
  0 <= L <= 9999 ->
  Prefixed.lastBaseCode t
  = (Prefixed.prefix t ++ Prefixed.cnpjDigits t) ++ padded 4 L ->
  Prefixed.startNumber_of t = Num (L + 1).
Proof.
  intros Hlen HL Hcur.
  assert (Hl4 : String.length (padded 4 L) = 4%nat)
    by (apply padded_length_fits; cbn; lia).
  replace (L + 1) with (numeric_value (padded 4 L) + 1)
    by (rewrite padded_value; lia).
  apply startNumber_continues.
  - exact Hlen.
  - rewrite Hcur. apply substring_head_at. exact Hlen.
  - unfold slice. rewrite Hcur. apply substring_tail_at; assumption.
  - apply padded_all_digits. lia.
Qed.

Lemma prefixed_run_NoDup (head : string) (st : Z) (len : nat) :
  0 <= st ->
  NoDup (map (fun i => head ++ padded 4 (st + Z.of_nat i)) (seq 0 len)).
Proof.
  intros Hst. apply NoDup_map_NoDup_ForallPairs; [|apply seq_NoDup].
  intros i j _ _ E. apply append_inv_head, padded_inj in E; lia.
Qed.

(** X3: in the prefixed revision, a batch whose tails stay within 9999
    leaves a cursor from which the next call (in the same session or
    after a reload, with the same prefix and CNPJ digits) continues: the
    two batches together are the run of tails from the first start, with no
    gap and no repetition. *)
Theorem prefixed_batches_continue
    (s t : Prefixed.State) (q1 q2 st : Z) :
  String.length (Prefixed.prefix s) = 3%nat ->
  String.length (Prefixed.cnpjDigits s) = 5%nat ->
  parseInt (Prefixed.quantity s) = Num q1 -> 1 <= q1 <= 1000 ->
  Prefixed.startNumber_of s = Num st -> 0 <= st -> st + q1 - 1 <= 9999 ->
  Prefixed.prefix t = Prefixed.prefix s ->
  Prefixed.cnpjDigits t = Prefixed.cnpjDigits s ->
  Some (Prefixed.lastBaseCode t)
  = Prefixed.localStorage (Prefixed.generateEans s) ->
  parseInt (Prefixed.quantity t) = Num q2 -> 1 <= q2 <= 1000 ->
  let head := Prefixed.prefix s ++ Prefixed.cnpjDigits s in
  let batch1 := base_codes (Prefixed.generatedCodes (Prefixed.generateEans s)) in
  let batch2 := base_codes (Prefixed.generatedCodes (Prefixed.generateEans t)) in
  (batch1 ++ batch2)%list
  = map (fun i => head ++ padded 4 (st + Z.of_nat i))
        (seq 0 (Z.to_nat (q1 + q2))) /\
  NoDup (batch1 ++ batch2) /\
  Some (Prefixed.lastBaseCode
          (Prefixed.init (Prefixed.localStorage (Prefixed.generateEans s))))
  = Prefixed.localStorage (Prefixed.generateEans s).
Proof.
  intros Hp Hc Hq1 Hr1 Hst Hst0 Hfit Hpt Hct Hcur Hq2 Hr2 head batch1 batch2.
  assert (Hlen : String.length head = 8%nat)
    by (unfold head; rewrite length_append, Hp, Hc; reflexivity).
  pose proof (Prefixed_generateEans_ok s q1 st Hc Hq1 Hr1 Hst) as E1.
  cbv zeta in E1. fold head in E1.
  assert (Hcur' : Prefixed.lastBaseCode t = head ++ padded 4 (st + q1 - 1)).
  { rewrite E1 in Hcur. cbn [Prefixed.localStorage] in Hcur.
    injection Hcur as Hcur. exact Hcur. }
  assert (Hst2 : Prefixed.startNumber_of t = Num (st + q1 - 1 + 1)).
  { apply startNumber_after.
    - rewrite Hpt, Hct. exact Hlen.
    - lia.
    - rewrite Hpt, Hct. exact Hcur'. }
  assert (Hc2 : String.length (Prefixed.cnpjDigits t) = 5%nat)
    by (rewrite Hct; exact Hc).
  pose proof (Prefixed_generateEans_ok t q2 _ Hc2 Hq2 Hr2 Hst2) as E2.
  cbv zeta in E2. rewrite Hpt, Hct in E2. fold head in E2.
  assert (R : (batch1 ++ batch2)%list
              = map (fun i => head ++ padded 4 (st + Z.of_nat i))
                    (seq 0 (Z.to_nat (q1 + q2)))).
  { unfold batch1, batch2, base_codes. rewrite E1, E2.
    cbn [Prefixed.generatedCodes]. rewrite !map_map.
    cbn [prefixed_entry Ean.baseCode].
    rewrite Z2Nat.inj_add, seq_app, map_app by lia. f_equal.
    cbn [Nat.add]. rewrite (map_seq_from _ (Z.to_nat q1)).
    apply map_ext. intros i. do 2 f_equal. lia. }
  split; [exact R|]. split.
  - rewrite R. apply prefixed_run_NoDup. exact Hst0.
  - rewrite E1. cbn [Prefixed.localStorage Prefixed.init Prefixed.lastBaseCode].
    destruct (head ++ padded 4 (st + q1 - 1)) eqn:E; [|reflexivity].
    apply (f_equal String.length) in E. rewrite length_append, Hlen in E.
    discriminate E.
Qed.

Lemma prefixed_batches_continue_witness :
  let s := Prefixed.setQuantity "2"
             (Prefixed.setCnpjDigits "12345"
                (Prefixed.init (Some "789123450041"))) in
  let t := Prefixed.setQuantity "3"
             (Prefixed.setCnpjDigits "12345"
                (Prefixed.init
                   (Prefixed.localStorage (Prefixed.generateEans s)))) in
  let head := Prefixed.prefix s ++ Prefixed.cnpjDigits s in
  let batch1 := base_codes (Prefixed.generatedCodes (Prefixed.generateEans s)) in
  let batch2 := base_codes (Prefixed.generatedCodes (Prefixed.generateEans t)) in
  (batch1 ++ batch2)%list
  = map (fun i => head ++ padded 4 (42 + Z.of_nat i))
        (seq 0 (Z.to_nat (2 + 3))) /\
  NoDup (batch1 ++ batch2) /\
  Some (Prefixed.lastBaseCode
          (Prefixed.init (Prefixed.localStorage (Prefixed.generateEans s))))
  = Prefixed.localStorage (Prefixed.generateEans s).
Proof.
  intros s t.
  apply (prefixed_batches_continue s t 2 3 42); try reflexivity; lia.
Defined.

Lemma padded_five (L : Z) :
  10000 <= L <= 99999 ->
  padded 4 L = padded 4 (L / 10) ++ padded 1 (L mod 10).
Proof.
  intros HL.
  assert (Hq : 1000 <= L / 10 <= 9999).
  { split; [apply Z.div_le_lower_bound; lia|].
    apply Z.lt_succ_r, Z.div_lt_upper_bound; lia. }
  assert (Hm : 0 <= L mod 10 < 10) by (apply Z.mod_pos_bound; lia).
  assert (Hl : String.length (padded 4 L) = 5%nat)
    by (apply padded_length_over; cbn; lia).
  assert (Hd : forallb is_digit (split (padded 4 L)) = true)
    by (apply padded_digits; lia).
  rewrite <- (padded_unique 5 (padded 4 L)) by (lia || assumption).
  rewrite <- (padded_unique 5 (padded 4 (L / 10) ++ padded 1 (L mod 10))).
  - f_equal. rewrite numeric_value_app, !padded_value by lia.
    rewrite padded_length_fits by (cbn; lia).
    pose proof (Z.div_mod L 10 ltac:(lia)). cbn. lia.
  - lia.
  - rewrite length_append, !padded_length_fits by (cbn; lia). reflexivity.
  - rewrite digits_app, !padded_digits by lia. reflexivity.
Qed.

Lemma substring_middle (a b c : string) (n m : nat) :
  String.length a = n -> String.length b = m ->
  substring n m (a ++ (b ++ c)) = b.
Proof. intros <- <-. rewrite substring_tail. apply substring_head. Qed.

(** X4: in the prefixed revision, once a batch has ended on a tail L above
    9999, the cursor holds five tail digits, the next call reads only the
    first four of them, and so starts again at tail L / 10 + 1, a tail
    below the one just issued. *)
Theorem prefixed_overflow_restarts (s : Prefixed.State) (q st : Z) :
  String.length (Prefixed.prefix s) = 3%nat ->
  String.length (Prefixed.cnpjDigits s) = 5%nat ->
  parseInt (Prefixed.quantity s) = Num q -> 1 <= q <= 1000 ->
  Prefixed.startNumber_of s = Num st -> 0 <= st ->
  9999 < st + q - 1 <= 99999 ->
  let head := Prefixed.prefix s ++ Prefixed.cnpjDigits s in
  let L := st + q - 1 in
  let s' := Prefixed.generateEans s in
  Prefixed.lastBaseCode s' = head ++ padded 4 L /\
  Prefixed.startNumber_of s' = Num (L / 10 + 1) /\
  L / 10 + 1 < L /\
  base_codes (Prefixed.generatedCodes (Prefixed.generateEans s'))
  = map (fun i => head ++ padded 4 (L / 10 + 1 + Z.of_nat i))
        (seq 0 (Z.to_nat q)).
Proof.
  intros Hp Hc Hq Hr Hst Hst0 Hov head L s'.
  assert (Hlen : String.length head = 8%nat)
    by (unfold head; rewrite length_append, Hp, Hc; reflexivity).
  pose proof (Prefixed_generateEans_ok s q st Hc Hq Hr Hst) as E1.
  cbv zeta in E1. fold head in E1. fold L in E1. fold s' in E1.
  assert (Hq10 : 1000 <= L / 10 <= 9999).
  { split; [apply Z.div_le_lower_bound; lia|].
    apply Z.lt_succ_r, Z.div_lt_upper_bound; lia. }
  assert (Hst' : Prefixed.startNumber_of s' = Num (L / 10 + 1)).
  { replace (L / 10 + 1) with (numeric_value (padded 4 (L / 10)) + 1)
      by (rewrite padded_value; lia).
    rewrite E1. apply startNumber_continues;
      cbn [Prefixed.prefix Prefixed.cnpjDigits Prefixed.lastBaseCode].
    - exact Hlen.
    - apply substring_head_at. exact Hlen.
    - unfold slice. change (12 - 8)%nat with 4%nat.
      rewrite padded_five by lia.
      apply substring_middle; [exact Hlen|].
      apply padded_length_fits; cbn; lia.
    - apply padded_all_digits. lia. }
  split; [rewrite E1; reflexivity|]. split; [exact Hst'|].
  assert (Hle : 10 * (L / 10) <= L) by (apply Z.mul_div_le; lia).
  split; [lia|].
  assert (Hc' : String.length (Prefixed.cnpjDigits s') = 5%nat)
    by (rewrite E1; exact Hc).
  assert (Hq' : parseInt (Prefixed.quantity s') = Num q)
    by (rewrite E1; exact Hq).
  rewrite (Prefixed_generateEans_ok s' q _ Hc' Hq' Hr Hst').
  cbn [Prefixed.generatedCodes]. unfold base_codes. rewrite map_map.
  cbn [prefixed_entry Ean.baseCode]. rewrite E1.
  cbn [Prefixed.prefix Prefixed.cnpjDigits]. reflexivity.
Qed.

Lemma prefixed_overflow_restarts_witness :
  let s := Prefixed.setQuantity "2"
             (Prefixed.setCnpjDigits "12345"
                (Prefixed.init (Some "789123459998"))) in
  let head := Prefixed.prefix s ++ Prefixed.cnpjDigits s in
  let L := 9999 + 2 - 1 in
  let s' := Prefixed.generateEans s in
  Prefixed.lastBaseCode s' = head ++ padded 4 L /\
  Prefixed.startNumber_of s' = Num (L / 10 + 1) /\
  L / 10 + 1 < L /\
  base_codes (Prefixed.generatedCodes (Prefixed.generateEans s'))
  = map (fun i => head ++ padded 4 (L / 10 + 1 + Z.of_nat i))
        (seq 0 (Z.to_nat 2)).
Proof.
  intros s.
  apply (prefixed_overflow_restarts s 2 9999); try reflexivity; lia.
Defined.

Example prefixed_overflow_example :
  let s := Prefixed.setQuantity "2"
             (Prefixed.setCnpjDigits "12345"
                (Prefixed.init (Some "789123459998"))) in
  let s' := Prefixed.generateEans s in
  base_codes (Prefixed.generatedCodes s')
  = ["789123459999"; "7891234510000"] /\
  base_codes (Prefixed.generatedCodes (Prefixed.generateEans s'))
  = ["789123451001"; "789123451002"].
Proof. vm_compute. repeat split. Qed.

(** ** Resetting, repeating and typing *)

(** X5: in the prefixed revision, after [resetLastCode] nothing is stored
    any more, a reload finds no cursor, and the next batch is the one of a
    fresh start: tails 0000, 0001, ... whatever the cursor was before. *)
Theorem reset_restarts_sequence (s : Prefixed.State) (q : Z) :
  String.length (Prefixed.prefix s) = 3%nat ->
  String.length (Prefixed.cnpjDigits s) = 5%nat ->
  parseInt (Prefixed.quantity s) = Num q -> 1 <= q <= 1000 ->
  let head := Prefixed.prefix s ++ Prefixed.cnpjDigits s in
  let s' := Prefixed.resetLastCode s in
  Prefixed.localStorage s' = None /\
  Prefixed.lastBaseCode (Prefixed.init (Prefixed.localStorage s')) = "" /\
  base_codes (Prefixed.generatedCodes (Prefixed.generateEans s'))
  = map (fun i => head ++ padded 4 (Z.of_nat i)) (seq 0 (Z.to_nat q)) /\
  Prefixed.localStorage (Prefixed.generateEans s')
  = Some (head ++ padded 4 (q - 1)).
Proof.
  intros Hp Hc Hq Hr head s'.
  split; [reflexivity|]. split; [reflexivity|].
  assert (Hst : Prefixed.startNumber_of s' = Num 0) by reflexivity.
  assert (Hc' : String.length (Prefixed.cnpjDigits s') = 5%nat) by exact Hc.
  assert (Hq' : parseInt (Prefixed.quantity s') = Num q) by exact Hq.
  rewrite (Prefixed_generateEans_ok s' q 0 Hc' Hq' Hr Hst).
  cbn [Prefixed.generatedCodes Prefixed.localStorage]. unfold base_codes.
  rewrite map_map. split; reflexivity.
Qed.

Lemma reset_restarts_sequence_witness :
  let s := Prefixed.setQuantity "2"
             (Prefixed.setCnpjDigits "12345"
                (Prefixed.init (Some "789123450041"))) in
  let head := Prefixed.prefix s ++ Prefixed.cnpjDigits s in
  let s' := Prefixed.resetLastCode s in
  Prefixed.localStorage s' = None /\
  Prefixed.lastBaseCode (Prefixed.init (Prefixed.localStorage s')) = "" /\
  base_codes (Prefixed.generatedCodes (Prefixed.generateEans s'))
  = map (fun i => head ++ padded 4 (Z.of_nat i)) (seq 0 (Z.to_nat 2)) /\
  Prefixed.localStorage (Prefixed.generateEans s')
  = Some (head ++ padded 4 (2 - 1)).
Proof.
  intros s. apply (reset_restarts_sequence s 2); try reflexivity. lia.
Defined.

(** X6: in the free-base revision the stored cursor is written and shown
    but never read by the generation: two states with the same base code
    and the same valid quantity get the same codes and leave the same
    cursor, so a second click, a reset or a reload in between changes
    nothing and the same codes are issued again. *)
Theorem free_base_ignores_cursor (s t : FreeBase.State) (q : Z) :
  is_base_code (FreeBase.baseCode s) = true ->
  parseInt (FreeBase.quantity s) = Num q -> 1 <= q <= 1000 ->
  FreeBase.baseCode t = FreeBase.baseCode s ->
  FreeBase.quantity t = FreeBase.quantity s ->
  FreeBase.generatedCodes (FreeBase.generateEans t)
  = FreeBase.generatedCodes (FreeBase.generateEans s) /\
  FreeBase.localStorage (FreeBase.generateEans t)
  = FreeBase.localStorage (FreeBase.generateEans s) /\
  FreeBase.generatedCodes (FreeBase.generateEans (FreeBase.generateEans s))
  = FreeBase.generatedCodes (FreeBase.generateEans s) /\
  FreeBase.generatedCodes
    (FreeBase.generateEans (FreeBase.resetLastCode (FreeBase.generateEans s)))
  = FreeBase.generatedCodes (FreeBase.generateEans s).
Proof.
  intros Hb Hq Hr Hbt Hqt.
  assert (G : forall u, FreeBase.baseCode u = FreeBase.baseCode s ->
                        FreeBase.quantity u = FreeBase.quantity s ->
              FreeBase.generatedCodes (FreeBase.generateEans u)
              = FreeBase.generatedCodes (FreeBase.generateEans s) /\
              FreeBase.localStorage (FreeBase.generateEans u)
              = FreeBase.localStorage (FreeBase.generateEans s)).
  { intros u Hbu Hqu.
    rewrite (FreeBase_generateEans_ok u q), (FreeBase_generateEans_ok s q);
      try assumption; try (rewrite Hbu; assumption);
      try (rewrite Hqu; assumption).
    rewrite Hbu. split; reflexivity. }
  pose proof (FreeBase_generateEans_ok s q Hb Hq Hr) as E. cbv zeta in E.
  split; [apply G; assumption|]. split; [apply G; assumption|].
  split; apply G; rewrite E; reflexivity.
Qed.

Lemma free_base_ignores_cursor_witness :
  let s := FreeBase.setQuantity "3"
             (FreeBase.setBaseCode "789428216684" (FreeBase.init None)) in
  let t := FreeBase.setQuantity "3"
             (FreeBase.setBaseCode "789428216684"
                (FreeBase.init (Some "789428216686"))) in
  FreeBase.generatedCodes (FreeBase.generateEans t)
  = FreeBase.generatedCodes (FreeBase.generateEans s) /\
  FreeBase.localStorage (FreeBase.generateEans t)
  = FreeBase.localStorage (FreeBase.generateEans s) /\
  FreeBase.generatedCodes (FreeBase.generateEans (FreeBase.generateEans s))
  = FreeBase.generatedCodes (FreeBase.generateEans s) /\
  FreeBase.generatedCodes
    (FreeBase.generateEans (FreeBase.resetLastCode (FreeBase.generateEans s)))
  = FreeBase.generatedCodes (FreeBase.generateEans s).
Proof.
  intros s t.
  apply (free_base_ignores_cursor s t 3); try reflexivity. lia.
Defined.

Lemma filter_digits_are_digits (v : string) :
  forallb is_digit
    (split (string_of_list_ascii (filter is_digit (split v)))) = true.
Proof.
  unfold split at 1. rewrite list_ascii_of_string_of_list_ascii.
  induction (split v) as [|c cs IH]; [reflexivity|].
  cbn [filter]. destruct (is_digit c) eqn:E; [|exact IH].
  cbn [forallb]. rewrite E. exact IH.
Qed.

(** X7: the base-code field keeps only decimal digits of what is typed,
    so a base code set through it never draws the toast "Digite apenas
    números": a request is refused for its length or its quantity only. *)
Theorem typed_base_code_is_numeric (v : string) (s : FreeBase.State) :
  let s' := FreeBase.setBaseCode v s in
  forallb is_digit (split (FreeBase.baseCode s')) = true /\
  (In (toast_error "Digite apenas números")
      (FreeBase.toasts (FreeBase.generateEans s')) ->
   In (toast_error "Digite apenas números") (FreeBase.toasts s)).
Proof.
  intros s'.
  assert (Hd : forallb is_digit (split (FreeBase.baseCode s')) = true)
    by apply filter_digits_are_digits.
  split; [exact Hd|].
  unfold FreeBase.generateEans.
  destruct (Nat.eqb (String.length (FreeBase.baseCode s')) 12) eqn:El;
    cbn [negb].
  - assert (Ha : all_digits (FreeBase.baseCode s') = true).
    { unfold all_digits. apply Nat.eqb_eq in El.
      destruct (split (FreeBase.baseCode s')) eqn:E; [|exact Hd].
      apply (f_equal (@List.length _)) in E.
      rewrite length_split, El in E. discriminate E. }
    rewrite Ha. cbn [negb].
    destruct (bad_quantity (parseInt (FreeBase.quantity s'))).
    + cbn [FreeBase.notify FreeBase.toasts]. intros H.
      apply in_app_or in H. destruct H as [H|[H|[]]]; [exact H|].
      discriminate H.
    + destruct (last_code _); [|intros H; exact H].
      cbn [FreeBase.toasts]. intros H.
      apply in_app_or in H. destruct H as [H|[H|[]]]; [exact H|].
      discriminate H.
  - cbn [FreeBase.notify FreeBase.toasts]. intros H.
    apply in_app_or in H. destruct H as [H|[H|[]]]; [exact H|].
    discriminate H.
Qed.

(** ** The exported text *)

Lemma split_on_free (c : ascii) (x : string) :
  free_of c x -> split_on c x = [x].
Proof.
  unfold free_of, split. induction x as [|y x IH]; intros H; [reflexivity|].
  cbn [list_ascii_of_string forallb] in H.
  apply andb_true_iff in H. destruct H as [Hy Hx].
  cbn [split_on]. apply negb_true_iff in Hy. rewrite Hy, (IH Hx).
  reflexivity.
Qed.

Lemma split_on_app (c : ascii) (x rest : string) :
  free_of c x ->
  split_on c (x ++ String c rest) = x :: split_on c rest.
Proof.
  unfold free_of, split. induction x as [|y x IH]; intros H.
  - cbn. rewrite Ascii.eqb_refl. reflexivity.
  - cbn [list_ascii_of_string forallb] in H.
    apply andb_true_iff in H. destruct H as [Hy Hx].
    cbn [append split_on]. apply negb_true_iff in Hy.
    rewrite Hy, (IH Hx). reflexivity.
Qed.

(** Joining with a separator and splitting on it are inverse on a
    non-empty list of pieces free of the separator. *)
Lemma split_on_join (c : ascii) (l : list string) :
  l <> [] -> Forall (free_of c) l ->
  split_on c (join (String c "") l) = l.
Proof.
  induction l as [|x l IH]; intros Hne H; [contradiction|].
  inversion H as [|? ? Hx Hl]; subst.
  destruct l as [|y l].
  - cbn [join]. apply split_on_free. exact Hx.
  - change (join (String c "") (x :: y :: l))
      with (x ++ String c (join (String c "") (y :: l))).
    rewrite split_on_app by exact Hx. f_equal.
    apply IH; [discriminate|exact Hl].
Qed.

Lemma digits_free_of_newline (x : string) :
  forallb is_digit (split x) = true -> free_of "010" x.
Proof.
  unfold free_of. induction (split x) as [|c cs IH]; [reflexivity|].
  cbn [forallb]. intros H. apply andb_true_iff in H. destruct H as [Hc Hcs].
  rewrite (IH Hcs), andb_true_r. apply negb_true_iff.
  apply digit_cases in Hc. cbn in Hc.
  repeat (destruct Hc as [<-|Hc]; [reflexivity|]). contradiction.
Qed.

(** Beyond 12 digits too, the full code of a padded number is made of
    decimal digits. *)
Lemma entry_code_digits (m : Z) :
  0 <= m -> forallb is_digit (split (Ean.code (entry_of m))) = true.
Proof.
  intros Hm. cbn [entry_of Ean.code]. unfold base_of.
  pose proof (padded_digits 12 m Hm) as Hd.
  rewrite digits_app, Hd. cbn [andb].
  destruct (check_digit_white_as_zero (padded 12 m)) as (d & Hb & ->).
  - unfold padded. rewrite length_padStart. lia.
  - intros i c _ Hi. left.
    apply nth_error_In in Hi.
    rewrite forallb_forall in Hd. apply Hd. exact Hi.
  - cbn. destruct (is_digit_digit_char d Hb) as [-> _]. reflexivity.
Qed.

(** X8: the text that is copied and downloaded has one line per generated
    code: splitting it at the line breaks gives back the codes of the
    batch, in order, whatever the size of the numbers. *)
Theorem exported_text_lines (startBase : string) (q : Z) :
  is_base_code startBase = true -> 1 <= q ->
  let codes := generate_codes (parseInt startBase) (Num q) in
  split_on "010" (allCodes codes) = map Ean.code codes /\
  List.length (split_on "010" (allCodes codes)) = Z.to_nat q.
Proof.
  intros Hb Hq codes.
  destruct (is_base_code_spec _ Hb) as (_ & _ & Hp & Hn).
  assert (R : split_on "010" (allCodes codes) = map Ean.code codes).
  { unfold allCodes, newline. apply split_on_join.
    - unfold codes. rewrite Hp, generate_codes_map, map_map.
      destruct (Z.to_nat q) eqn:E; [lia|]. discriminate.
    - apply Forall_forall. intros x Hx.
      apply in_map_iff in Hx. destruct Hx as (e & <- & He).
      unfold codes in He. rewrite Hp, generate_codes_map in He.
      apply in_map_iff in He. destruct He as (i & <- & _).
      apply digits_free_of_newline, entry_code_digits. lia. }
  split; [exact R|].
  rewrite R, length_map. unfold codes. rewrite Hp.
  apply generate_codes_length.
Qed.

Lemma exported_text_lines_witness :
  let codes := generate_codes (parseInt "789428216684") (Num 3) in
  split_on "010" (allCodes codes) = map Ean.code codes /\
  List.length (split_on "010" (allCodes codes)) = Z.to_nat 3.
Proof.
  apply (exported_text_lines "789428216684" 3); [reflexivity|lia].
Defined.

(** ** Head and tail of a saved base *)

Lemma string_app_assoc (a b c : string) : (a ++ b) ++ c = a ++ (b ++ c).
Proof.
  induction a as [|x a IH]; [reflexivity|]. cbn. rewrite IH. reflexivity.
Qed.

Lemma head_tail_base_code (h : string) (t : Z) :
  String.length h = 8%nat -> forallb is_digit (split h) = true ->
  0 <= t <= 9999 ->
  is_base_code (h ++ padded 4 t) = true /\
  numeric_value (h ++ padded 4 t) = numeric_value h * 10000 + t.
Proof.
  intros Hl Hd Ht. split.
  - unfold is_base_code.
    rewrite length_append, Hl, padded_length_fits by (cbn; lia).
    rewrite digits_app, Hd, padded_digits by lia. reflexivity.
  - rewrite numeric_value_app, padded_value by lia.
    rewrite padded_length_fits by (cbn; lia). reflexivity.
Qed.

(** X9: the saved-bases revision counts with the whole 12-digit number.
    From a cursor made of an 8-digit head and a 4-digit tail t, the i-th
    base code keeps the head and has tail t + i as long as t + i stays
    within 9999; beyond, the tail wraps around and the excess is carried
    into the head, so that the base code no longer starts with the head
    (prefix and CNPJ digits) of the cursor. *)
Theorem saved_number_carries (h : string) (t q : Z) (i : nat) :
  String.length h = 8%nat -> forallb is_digit (split h) = true ->
  0 <= t <= 9999 -> (i < Z.to_nat q)%nat ->
  numeric_value h + (t + Z.of_nat i) / 10000 <= 99999999 ->
  let cursor := h ++ padded 4 t in
  let code_i :=
    padded 8 (numeric_value h + (t + Z.of_nat i) / 10000)
    ++ padded 4 ((t + Z.of_nat i) mod 10000) in
  nth_error (base_codes (generate_codes (parseInt cursor) (Num q))) i
  = Some code_i /\
  (t + Z.of_nat i <= 9999 -> code_i = h ++ padded 4 (t + Z.of_nat i)) /\
  (9999 < t + Z.of_nat i -> substring 0 8 code_i <> h).
Proof.
  intros Hl Hd Ht Hi Hfit cursor code_i.
  destruct (head_tail_base_code h t Hl Hd Ht) as [Hb Hv].
  destruct (is_base_code_spec _ Hb) as (_ & _ & Hp & _).
  pose proof (dec_value_bound _ Hd) as BH.
  rewrite length_split, Hl in BH. fold (numeric_value h) in BH.
  set (H := numeric_value h) in *.
  set (k := (t + Z.of_nat i) / 10000) in *.
  set (r := (t + Z.of_nat i) mod 10000) in *.
  assert (Hr : 0 <= r < 10000) by (apply Z.mod_pos_bound; lia).
  assert (Hk : 0 <= k) by (apply Z.div_pos; lia).
  assert (Hkr : t + Z.of_nat i = 10000 * k + r)
    by (apply Z.div_mod; lia).
  assert (L8 : String.length (padded 8 (H + k)) = 8%nat)
    by (apply padded_length_fits; cbn; lia).
  assert (L4 : String.length (padded 4 r) = 4%nat)
    by (apply padded_length_fits; cbn; lia).
  split; [|split].
  - unfold base_codes. rewrite nth_error_map.
    fold cursor in Hp, Hv. rewrite Hp, generate_codes_nth by exact Hi.
    cbn [option_map entry_of Ean.baseCode]. f_equal. unfold base_of.
    rewrite <- (padded_unique 12 code_i).
    + f_equal. unfold code_i. rewrite numeric_value_app, L4.
      rewrite !padded_value by lia. rewrite Hv. cbn. lia.
    + lia.
    + unfold code_i. rewrite length_append, L8, L4. reflexivity.
    + unfold code_i. rewrite digits_app, !padded_digits by lia. reflexivity.
  - intros Hle. unfold code_i.
    assert (k = 0) by (apply Z.div_small; lia).
    assert (r = t + Z.of_nat i) by lia.
    replace (H + k) with H by lia. subst H.
    rewrite (padded_unique 8 h) by (lia || assumption). congruence.
  - intros Hgt E. unfold code_i in E.
    rewrite (substring_head_at _ _ 8 L8) in E.
    apply (f_equal numeric_value) in E. rewrite padded_value in E by lia.
    fold H in E.
    assert (1 <= k) by (apply Z.div_le_lower_bound; lia). lia.
Qed.

Lemma saved_number_carries_witness :
  let cursor := "78912345" ++ padded 4 9999 in
  let code_i :=
    padded 8 (numeric_value "78912345" + (9999 + Z.of_nat 1) / 10000)
    ++ padded 4 ((9999 + Z.of_nat 1) mod 10000) in
  nth_error (base_codes (generate_codes (parseInt cursor) (Num 2))) 1
  = Some code_i /\
  (9999 + Z.of_nat 1 <= 9999 -> code_i = "78912345" ++ padded 4 (9999 + Z.of_nat 1)) /\
  (9999 < 9999 + Z.of_nat 1 -> substring 0 8 code_i <> "78912345").
Proof.
  apply (saved_number_carries "78912345" 9999 2 1); try reflexivity;
    try lia.
  vm_compute. discriminate.
Defined.

Example saved_carry_example :
  base_codes (generate_codes (parseInt "789123459999") (Num 2))
  = ["789123459999"; "789123460000"].
Proof. vm_compute. reflexivity. Qed.

(** ** Creating and deleting saved bases *)

Lemma initial_base_code (cnpj : string) :
  String.length cnpj = 5%nat -> forallb is_digit (split cnpj) = true ->
  String.length ("789" ++ cnpj) = 8%nat /\
  forallb is_digit (split ("789" ++ cnpj)) = true /\
  "789" ++ cnpj ++ "0001" = ("789" ++ cnpj) ++ padded 4 1.
Proof.
  intros Hl Hd. split; [|split].
  - rewrite length_append, Hl. reflexivity.
  - rewrite digits_app, Hd. reflexivity.
  - rewrite string_app_assoc. reflexivity.
Qed.

Lemma base_of_head_tail (h : string) (t j : Z) :
  String.length h = 8%nat -> forallb is_digit (split h) = true ->
  0 <= t -> 0 <= j -> t + j <= 9999 ->
  base_of (numeric_value (h ++ padded 4 t) + j) = h ++ padded 4 (t + j).
Proof.
  intros Hl Hd Ht Hj Hfit.
  destruct (head_tail_base_code h t Hl Hd ltac:(lia)) as [_ Hv].
  destruct (head_tail_base_code h (t + j) Hl Hd ltac:(lia)) as [Hb Hv'].
  unfold is_base_code in Hb. apply andb_true_iff in Hb.
  destruct Hb as [Hl12 Hd12]. apply Nat.eqb_eq in Hl12.
  unfold base_of. rewrite <- (padded_unique 12 (h ++ padded 4 (t + j)))
    by (lia || assumption).
  f_equal. lia.
Qed.

(** X10: a form that passes the checks of [createNewBase] (a name that is
    not blank, exactly 5 CNPJ digits) gives a row that meets the CHECK
    constraints on [cnpj_prefix] and [last_base_code]; once inserted the
    new base is listed and selected, and its first batch of q codes has
    the base codes 789, the CNPJ digits and the tails 0001 to q. *)
Theorem new_base_first_batch
    (new_id u : string) (s : Saved.State) (f : Saved.Form)
    (x : option Saved.fault) (q : Z) :
  Saved.user s = Some u ->
  truthy (trim (Saved.newName f)) = true ->
  String.length (Saved.newCnpjPrefix f) = 5%nat ->
  all_digits (Saved.newCnpjPrefix f) = true ->
  parseInt (Saved.quantity s) = Num q -> 1 <= q <= 1000 ->
  let cnpj := Saved.newCnpjPrefix f in
  let s' := fst (Saved.createNewBase (Saved.inserted new_id) s f) in
  exists row,
    Saved.selectedBase s' = Some row /\
    Saved.savedBases s' = (Saved.savedBases s ++ [row])%list /\
    Saved.table s' = (Saved.table s ++ [row])%list /\
    Saved.id row = new_id /\
    Saved.name row = trim (Saved.newName f) /\
    Saved.cnpj_prefix_format (Saved.cnpj_prefix row) = true /\
    Saved.last_base_code_format (Saved.last_base_code row) = true /\
    base_codes (Saved.generatedCodes (Saved.generateEans x s'))
    = map (fun i => ("789" ++ cnpj) ++ padded 4 (1 + Z.of_nat i))
          (seq 0 (Z.to_nat q)).
Proof.
  intros Hu Hn Hl Hd Hq Hr cnpj s'. subst cnpj s'.
  set (cnpj := Saved.newCnpjPrefix f) in *.
  destruct (all_digits_spec _ Hd) as [_ Hf].
  destruct (initial_base_code cnpj Hl Hf) as (H8 & Hd8 & Einit).
  destruct (head_tail_base_code ("789" ++ cnpj) 1 H8 Hd8 ltac:(lia))
    as [Hb Hv].
  destruct (is_base_code_spec _ Hb) as (_ & _ & Hp & Hn0).
  unfold Saved.createNewBase. fold cnpj. rewrite Hu, Hn, Hl, Hd.
  cbn [negb Nat.eqb orb fst]. rewrite Einit.
  eexists. split; [reflexivity|]. split; [reflexivity|].
  split; [reflexivity|]. split; [reflexivity|]. split; [reflexivity|].
  cbn [Saved.cnpj_prefix Saved.last_base_code].
  split; [unfold Saved.cnpj_prefix_format; rewrite Hl, Hf; reflexivity|].
  split; [exact Hb|].
  erewrite Saved_generated_codes; try reflexivity; try eassumption.
  rewrite base_codes_generate. unfold run. apply map_ext_in.
  intros i Hi. apply in_seq in Hi.
  apply base_of_head_tail; try assumption; lia.
Qed.

Lemma new_base_first_batch_witness :
  let s := {| Saved.user := Some "u1"; Saved.savedBases := [];
              Saved.selectedBase := None; Saved.quantity := "3";
              Saved.generatedCodes := []; Saved.toasts := [];
              Saved.table := [] |} in
  let f := {| Saved.showNewForm := true; Saved.newName := " Loja X ";
              Saved.newCnpjPrefix := "42821" |} in
  let s' := fst (Saved.createNewBase (Saved.inserted "b7") s f) in
  exists row,
    Saved.selectedBase s' = Some row /\
    Saved.savedBases s' = (Saved.savedBases s ++ [row])%list /\
    Saved.table s' = (Saved.table s ++ [row])%list /\
    Saved.id row = "b7" /\
    Saved.name row = trim (Saved.newName f) /\
    Saved.cnpj_prefix_format (Saved.cnpj_prefix row) = true /\
    Saved.last_base_code_format (Saved.last_base_code row) = true /\
    base_codes (Saved.generatedCodes (Saved.generateEans None s'))
    = map (fun i => ("789" ++ "42821") ++ padded 4 (1 + Z.of_nat i))
          (seq 0 (Z.to_nat 3)).
Proof.
  intros s f.
  apply (new_base_first_batch "b7" "u1" s f None 3); try reflexivity. lia.
Defined.

Example new_base_example :
  let s := {| Saved.user := Some "u1"; Saved.savedBases := [];
              Saved.selectedBase := None; Saved.quantity := "3";
              Saved.generatedCodes := []; Saved.toasts := [];
              Saved.table := [] |} in
  let f := {| Saved.showNewForm := true; Saved.newName := " Loja X ";
              Saved.newCnpjPrefix := "42821" |} in
  let s' := fst (Saved.createNewBase (Saved.inserted "b7") s f) in
  option_map Saved.name (Saved.selectedBase s') = Some "Loja X" /\
  base_codes (Saved.generatedCodes (Saved.generateEans None s'))
  = ["789428210001"; "789428210002"; "789428210003"] /\
  Saved.stored_cursor "b7" (Saved.generateEans None s') = Some "789428210004".
Proof. vm_compute. repeat split. Qed.

Lemma find_filter_other (i j : string) (rows : list Saved.SavedEanBase) :
  i <> j ->
  find (fun r => String.eqb (Saved.id r) i)
       (filter (fun b => negb (String.eqb (Saved.id b) j)) rows)
  = find (fun r => String.eqb (Saved.id r) i) rows.
Proof.
  intros Hij. induction rows as [|r rows IH]; [reflexivity|].
  cbn [filter find].
  destruct (String.eqb (Saved.id r) j) eqn:Ej; cbn [negb].
  - apply String.eqb_eq in Ej.
    destruct (String.eqb (Saved.id r) i) eqn:Ei; [|exact IH].
    apply String.eqb_eq in Ei. congruence.
  - cbn [find]. destruct (String.eqb (Saved.id r) i); [reflexivity|exact IH].
Qed.

Lemma find_filter_same (j : string) (rows : list Saved.SavedEanBase) :
  find (fun r => String.eqb (Saved.id r) j)
       (filter (fun b => negb (String.eqb (Saved.id b) j)) rows)
  = None.
Proof.
  induction rows as [|r rows IH]; [reflexivity|].
  cbn [filter]. destruct (String.eqb (Saved.id r) j) eqn:Ej; cbn [negb].
  - exact IH.
  - cbn [find]. rewrite Ej. exact IH.
Qed.

(** X11: a delete that goes through removes exactly the bases with that
    id from the list and from the table and leaves the other cursors
    alone; if the deleted base was the selected one, the selection and the
    generated codes are cleared and a later [generateEans] does nothing;
    a delete that fails changes nothing but the toasts. *)
Theorem delete_base_effects (base : Saved.SavedEanBase) (s : Saved.State) :
  let s' := Saved.deleteBase None base s in
  (forall b, In b (Saved.savedBases s') <->
             In b (Saved.savedBases s) /\ Saved.id b <> Saved.id base) /\
  Saved.stored_cursor (Saved.id base) s' = None /\
  (forall i, i <> Saved.id base ->
             Saved.stored_cursor i s' = Saved.stored_cursor i s) /\
  (forall sel, Saved.selectedBase s = Some sel ->
     Saved.id sel = Saved.id base ->
     Saved.selectedBase s' = None /\ Saved.generatedCodes s' = [] /\
     forall f, Saved.generateEans f s' = s') /\
  (forall sel, Saved.selectedBase s = Some sel ->
     Saved.id sel <> Saved.id base ->
     Saved.selectedBase s' = Some sel /\
     Saved.generatedCodes s' = Saved.generatedCodes s) /\
  (forall x,
     Saved.deleteBase (Some x) base s
     = Saved.notify (toast_error "Erro ao remover base") s).
Proof.
  cbv zeta. split; [|split; [|split; [|split; [|split]]]].
  - intros b. cbn [Saved.deleteBase Saved.savedBases].
    rewrite filter_In, negb_true_iff, String.eqb_neq. reflexivity.
  - unfold Saved.stored_cursor. cbn [Saved.deleteBase Saved.table].
    rewrite find_filter_same. reflexivity.
  - intros i Hi. unfold Saved.stored_cursor.
    cbn [Saved.deleteBase Saved.table].
    rewrite find_filter_other by exact Hi. reflexivity.
  - intros sel Hs Hid. unfold Saved.deleteBase. rewrite Hs, Hid.
    rewrite String.eqb_refl.
    cbn [Saved.selectedBase Saved.generatedCodes].
    split; [reflexivity|]. split; reflexivity.
  - intros sel Hs Hid. unfold Saved.deleteBase. rewrite Hs.
    apply String.eqb_neq in Hid. rewrite Hid.
    cbn [Saved.selectedBase Saved.generatedCodes]. split; reflexivity.
  - intros x. reflexivity.
Qed.

(** ** Stored cursors keep their format *)

Lemma update_keeps_valid (f : option Saved.fault) (i c : string)
      (rows : list Saved.SavedEanBase) :
  Forall valid_cursor rows ->
  Forall valid_cursor (snd (Saved.update_last_base_code f i c rows)) /\
  (fst (Saved.update_last_base_code f i c rows) = Saved.update_ok ->
   existsb (fun r => String.eqb (Saved.id r) i) rows = true ->
   Saved.last_base_code_format c = true).
Proof.
  intros H. unfold Saved.update_last_base_code.
  destruct f as [x|]; [split; [exact H|discriminate]|].
  destruct (existsb (fun r => String.eqb (Saved.id r) i) rows) eqn:Ex;
    destruct (Saved.last_base_code_format c) eqn:Ec; cbn [andb negb fst snd].
  - split; [|reflexivity]. apply Forall_forall. intros r Hr.
    apply in_map_iff in Hr. destruct Hr as (r0 & <- & Hr0).
    rewrite Forall_forall in H.
    destruct (String.eqb (Saved.id r0) i); [exact Ec|apply H; exact Hr0].
  - split; [exact H|discriminate].
  - split; [|discriminate]. apply Forall_forall. intros r Hr.
    apply in_map_iff in Hr. destruct Hr as (r0 & <- & Hr0).
    rewrite Forall_forall in H.
    destruct (String.eqb (Saved.id r0) i) eqn:E; [|apply H; exact Hr0].
    assert (existsb (fun r => String.eqb (Saved.id r) i) rows = true)
      by (apply existsb_exists; exists r0; split; assumption).
    congruence.
  - split; [|discriminate]. apply Forall_forall. intros r Hr.
    apply in_map_iff in Hr. destruct Hr as (r0 & <- & Hr0).
    rewrite Forall_forall in H.
    destruct (String.eqb (Saved.id r0) i) eqn:E; [|apply H; exact Hr0].
    assert (existsb (fun r => String.eqb (Saved.id r) i) rows = true)
      by (apply existsb_exists; exists r0; split; assumption).
    congruence.
Qed.

Lemma generateEans_cases (f : option Saved.fault) (s : Saved.State) :
  (Saved.table (Saved.generateEans f s) = Saved.table s /\
   Saved.selectedBase (Saved.generateEans f s) = Saved.selectedBase s) \/
  exists sel c,
    Saved.selectedBase s = Some sel /\
    Saved.table (Saved.generateEans f s)
    = snd (Saved.update_last_base_code f (Saved.id sel) c (Saved.table s)) /\
    fst (Saved.update_last_base_code f (Saved.id sel) c (Saved.table s))
    = Saved.update_ok /\
    Saved.selectedBase (Saved.generateEans f s)
    = Some (Saved.with_last_base_code sel c).
Proof.
  destruct (Saved.selectedBase s) as [sel|] eqn:Es.
  2:{ left. unfold Saved.generateEans. rewrite Es. split; [reflexivity|].
      exact Es. }
  unfold Saved.generateEans. rewrite Es.
  destruct (Saved.user s); [|left; split; [reflexivity|exact Es]].
  destruct (bad_quantity _); [left; split; [reflexivity|exact Es]|].
  destruct (last_code _) as [e|]; [|left; split; [reflexivity|exact Es]].
  destruct (Saved.update_last_base_code f (Saved.id sel)
              (Saved.nextBaseCode_of (Ean.baseCode e)) (Saved.table s))
    as [[|] rows] eqn:E.
  - right. exists sel, (Saved.nextBaseCode_of (Ean.baseCode e)).
    rewrite E. repeat split; reflexivity.
  - left. split; [reflexivity|exact Es].
Qed.

(** X12: the cursors of the saved bases keep their format.  If every row
    of the table carries a 12-digit cursor, it still does after
    [generateEans], [createNewBase] and [deleteBase], whatever the
    server's answer and the quantity asked for; and when the selected
    base has its row in the table, the cursor held locally stays a
    12-digit base code as well: a batch that would push it past
    999999999999 does not advance it. *)
Theorem stored_cursors_stay_valid (s : Saved.State) :
  Forall valid_cursor (Saved.table s) ->
  (forall f, Forall valid_cursor (Saved.table (Saved.generateEans f s))) /\
  (forall r form,
      Forall valid_cursor (Saved.table (fst (Saved.createNewBase r s form)))) /\
  (forall f base,
      Forall valid_cursor (Saved.table (Saved.deleteBase f base s))) /\
  (forall f sel sel',
      Saved.selectedBase s = Some sel -> valid_cursor sel ->
      existsb (fun r => String.eqb (Saved.id r) (Saved.id sel))
              (Saved.table s) = true ->
      Saved.selectedBase (Saved.generateEans f s) = Some sel' ->
      valid_cursor sel').
Proof.
  intros H. split; [|split; [|split]].
  - intros f.
    destruct (generateEans_cases f s) as [[-> _]|(sel & c & _ & -> & _)];
      [exact H|].
    apply update_keeps_valid. exact H.
  - intros r form. unfold Saved.createNewBase.
    destruct (Saved.user s); [|exact H].
    destruct (negb (truthy (trim (Saved.newName form)))); [exact H|].
    destruct (Nat.eqb (String.length (Saved.newCnpjPrefix form)) 5) eqn:El;
      cbn [negb orb]; [|exact H].
    destruct (all_digits (Saved.newCnpjPrefix form)) eqn:Ed;
      cbn [negb]; [|exact H].
    destruct r as [new_id|code|]; cbn [fst].
    + cbn [Saved.table]. apply Forall_app. split; [exact H|].
      constructor; [|constructor].
      unfold valid_cursor. cbn [Saved.last_base_code].
      apply Nat.eqb_eq in El. destruct (all_digits_spec _ Ed) as [_ Hf].
      destruct (initial_base_code _ El Hf) as (H8 & Hd8 & ->).
      apply (head_tail_base_code _ 1 H8 Hd8). lia.
    + destruct (String.eqb code "23505"); exact H.
    + exact H.
  - intros f base. destruct f as [x|]; [exact H|].
    cbn [Saved.deleteBase Saved.table].
    apply Forall_forall. intros r Hr. apply filter_In in Hr.
    rewrite Forall_forall in H. apply H. tauto.
  - intros f sel sel' Hs Hv Hex Hs'.
    destruct (generateEans_cases f s)
      as [[_ E]|(sel0 & c & Hs0 & _ & Hok & E)].
    + rewrite E, Hs in Hs'. injection Hs' as <-. exact Hv.
    + rewrite Hs in Hs0. injection Hs0 as <-.
      rewrite E in Hs'. injection Hs' as <-.
      unfold valid_cursor. cbn [Saved.with_last_base_code Saved.last_base_code].
      exact (proj2 (update_keeps_valid f (Saved.id sel) c _ H) Hok Hex).
Qed.

Lemma stored_cursors_stay_valid_witness :
  let sel := {| Saved.id := "b1"; Saved.name := "Loja X";
                Saved.cnpj_prefix := "99999";
                Saved.last_base_code := "999999999999" |} in
  let s := {| Saved.user := Some "u1"; Saved.savedBases := [sel];
              Saved.selectedBase := Some sel; Saved.quantity := "2";
              Saved.generatedCodes := []; Saved.toasts := [];
              Saved.table := [sel] |} in
  (forall f, Forall valid_cursor (Saved.table (Saved.generateEans f s))) /\
  (forall r form,
      Forall valid_cursor (Saved.table (fst (Saved.createNewBase r s form)))) /\
  (forall f base,
      Forall valid_cursor (Saved.table (Saved.deleteBase f base s))) /\
  (forall f sel0 sel',
      Saved.selectedBase s = Some sel0 -> valid_cursor sel0 ->
      existsb (fun r => String.eqb (Saved.id r) (Saved.id sel0))
              (Saved.table s) = true ->
      Saved.selectedBase (Saved.generateEans f s) = Some sel' ->
      valid_cursor sel').
Proof.
  intros sel s. apply (stored_cursors_stay_valid s).
  repeat constructor.
Defined.

Example saved_overflow_example :
  let sel := {| Saved.id := "b1"; Saved.name := "Loja X";
                Saved.cnpj_prefix := "99999";
                Saved.last_base_code := "999999999999" |} in
  let s := {| Saved.user := Some "u1"; Saved.savedBases := [sel];
              Saved.selectedBase := Some sel; Saved.quantity := "2";
              Saved.generatedCodes := []; Saved.toasts := [];
              Saved.table := [sel] |} in
  let s' := Saved.generateEans None s in
  base_codes (Saved.generatedCodes s') = ["999999999999"; "1000000000000"] /\
  Saved.stored_cursor "b1" s' = Some "999999999999" /\
  Saved.selectedBase s' = Some sel /\
  Saved.toasts s'
  = [toast_error "Erro ao salvar último código";
     toast_success "2 código(s) EAN-13 gerado(s)!"].
Proof. vm_compute. repeat split. Qed.

(** ** The access gate *)

Lemma existsb_and_filter {A : Type} (p q : A -> bool) (l : list A) :
  existsb (fun a => p a && q a) l = existsb q (filter p l).
Proof.
  induction l as [|a l IH]; [reflexivity|].
  cbn [existsb filter]. destruct (p a); cbn [andb orb existsb].
  - rewrite IH. reflexivity.
  - exact IH.
Qed.

Lemma existsb_filter_nonempty {A : Type} (p : A -> bool) (l : list A) :
  existsb p l = match filter p l with [] => false | _ :: _ => true end.
Proof.
  induction l as [|a l IH]; [reflexivity|].
  cbn [existsb filter]. destruct (p a); [reflexivity|exact IH].
Qed.

Lemma find_filter_head {A : Type} (p : A -> bool) (l : list A) :
  find p l = hd_error (filter p l).
Proof.
  induction l as [|a l IH]; [reflexivity|].
  cbn [find filter]. destruct (p a); [reflexivity|exact IH].
Qed.

(** X13: the gate shown by the client agrees with the gate enforced by the
    row policies.  With at most one admin role row and at most one access
    row per user (the UNIQUE constraints of the two tables), and both
    queries answered, [checkUserAccess] sets [hasAccess] to what
    [has_valid_access] returns at the same time, and [isAdmin] to
    [has_role(_, 'admin')]; the row of the admin page for that user shows
    the same two values. *)
Theorem client_gate_agrees_with_policies
    (roles : list Access.role_row) (accesses : list Access.access_row)
    (uid : string) (now : Z) (st : Access.AuthState)
    (profile : Access.profile_row) :
  (List.length (Access.admin_rows roles uid) <= 1)%nat ->
  (List.length (Access.access_rows accesses uid) <= 1)%nat ->
  Access.profile_user_id profile = uid ->
  let st' := Access.checkUserAccess
               (Access.data (Access.admin_rows roles uid))
               (Access.data (Access.access_rows accesses uid)) now st in
  let row := Access.userWithAccess roles accesses now profile in
  Access.hasAccess st' = Access.has_valid_access roles accesses now uid /\
  Access.isAdmin st' = Access.has_role roles uid Access.admin /\
  Access.u_hasAccess row = Access.has_valid_access roles accesses now uid /\
  Access.u_isAdmin row = Access.has_role roles uid Access.admin.
Proof.
  intros Hr Ha Hp st' row.
  assert (Eadmin : Access.has_role roles uid Access.admin
                   = match Access.admin_rows roles uid with
                     | [] => false | _ :: _ => true end)
    by apply existsb_filter_nonempty.
  assert (Eacc : existsb (fun a => String.eqb (Access.access_user_id a) uid
                                   && (now <? Access.expires_at a)) accesses
                 = existsb (fun a => now <? Access.expires_at a)
                           (Access.access_rows accesses uid))
    by apply existsb_and_filter.
  assert (Evalid : Access.has_valid_access roles accesses now uid
                   = existsb (fun a => now <? Access.expires_at a)
                             (Access.access_rows accesses uid)
                     || Access.has_role roles uid Access.admin)
    by (unfold Access.has_valid_access; rewrite Eacc; reflexivity).
  assert (Erow_admin : Access.u_isAdmin row
                       = Access.has_role roles uid Access.admin).
  { unfold row, Access.userWithAccess, Access.has_role.
    cbn [Access.u_isAdmin]. rewrite Hp. symmetry.
    apply (existsb_and_filter
             (fun r => String.eqb (Access.role_user_id r) uid)
             (fun r => Access.role_eqb (Access.role r) Access.admin)). }
  assert (Erow_acc : Access.u_hasAccess row
                     = Access.u_isAdmin row
                       || match hd_error (Access.access_rows accesses uid) with
                          | Some a => now <? Access.expires_at a
                          | None => false
                          end).
  { unfold row, Access.userWithAccess.
    cbn [Access.u_hasAccess Access.u_isAdmin]. rewrite Hp.
    rewrite find_filter_head. fold (Access.access_rows accesses uid).
    destruct (hd_error (Access.access_rows accesses uid)); reflexivity. }
  rewrite Erow_acc, Erow_admin, Evalid, Eadmin. unfold st'.
  destruct (Access.admin_rows roles uid) as [|x [|x' rs]];
    [| |cbn in Hr; lia];
    destruct (Access.access_rows accesses uid) as [|y [|y' ys]];
    try (cbn in Ha; lia);
    cbn [Access.checkUserAccess Access.maybeSingle Access.hasAccess
         Access.isAdmin existsb hd_error orb];
    try (destruct (now <? Access.expires_at y));
    cbn [Access.hasAccess Access.isAdmin orb]; repeat split; reflexivity.
Qed.

Lemma client_gate_agrees_with_policies_witness :
  let roles := [ {| Access.role_user_id := "u1"; Access.role := Access.user |};
                 {| Access.role_user_id := "u2"; Access.role := Access.admin |} ] in
  let accesses := [ {| Access.access_user_id := "u1";
                       Access.expires_at := 2000 |} ] in
  let profile := {| Access.profile_user_id := "u1";
                    Access.email := "a@b.c" |} in
  let st' := Access.checkUserAccess
               (Access.data (Access.admin_rows roles "u1"))
               (Access.data (Access.access_rows accesses "u1")) 1500
               Access.signedOut in
  let row := Access.userWithAccess roles accesses 1500 profile in
  Access.hasAccess st' = Access.has_valid_access roles accesses 1500 "u1" /\
  Access.isAdmin st' = Access.has_role roles "u1" Access.admin /\
  Access.u_hasAccess row = Access.has_valid_access roles accesses 1500 "u1" /\
  Access.u_isAdmin row = Access.has_role roles "u1" Access.admin.
Proof.
  intros roles accesses profile.
  apply (client_gate_agrees_with_policies roles accesses "u1" 1500
           Access.signedOut profile); try reflexivity; cbn; lia.
Defined.

(** X14: [checkUserAccess] fails closed.  It grants access only on
    evidence: the role query gave exactly one admin row, or the access
    query gave exactly one row that expires after now.  A query that
    errs, throws, or gives several rows grants nothing, and on a throw
    the user is shown as no admin either. *)
Theorem access_needs_evidence
    (roleReply : Access.reply Access.role_row)
    (accessReply : Access.reply Access.access_row)
    (now : Z) (st : Access.AuthState) :
  Access.hasAccess (Access.checkUserAccess roleReply accessReply now st)
  = true ->
  (exists x, roleReply = Access.data [x] /\
             Access.isAdmin
               (Access.checkUserAccess roleReply accessReply now st) = true)
  \/
  (exists y, accessReply = Access.data [y] /\ now < Access.expires_at y /\
             Access.accessExpiresAt
               (Access.checkUserAccess roleReply accessReply now st)
             = Some (Access.expires_at y)).
Proof.
  unfold Access.checkUserAccess.
  destruct roleReply as [[|x [|x' rs]]| |]; cbn [Access.maybeSingle];
    try (intros H; left; exists x; split; reflexivity);
    try discriminate;
    destruct accessReply as [[|y [|y' ys]]| |]; cbn [Access.maybeSingle];
    try discriminate;
    (destruct (now <? Access.expires_at y) eqn:E; [|discriminate];
     intros _; right; exists y; apply Z.ltb_lt in E;
     repeat split; assumption).
Qed.

Lemma access_needs_evidence_witness :
  (exists x,
      Access.data [ {| Access.role_user_id := "u1";
                       Access.role := Access.admin |} ] = Access.data [x] /\
      Access.isAdmin
        (Access.checkUserAccess
           (Access.data [ {| Access.role_user_id := "u1";
                             Access.role := Access.admin |} ])
           Access.failed 0 Access.signedOut) = true)
  \/
  (exists y, @Access.failed Access.access_row = Access.data [y] /\
             0 < Access.expires_at y /\
             Access.accessExpiresAt
               (Access.checkUserAccess
                  (Access.data [ {| Access.role_user_id := "u1";
                                    Access.role := Access.admin |} ])
                  Access.failed 0 Access.signedOut)
             = Some (Access.expires_at y)).
Proof.
  apply (access_needs_evidence
           (Access.data [ {| Access.role_user_id := "u1";
                             Access.role := Access.admin |} ])
           Access.failed 0 Access.signedOut).
  reflexivity.
Defined.

(** ** Revoking access and toggling the admin role *)

Lemma existsb_filter_neg {A : Type} (p q : A -> bool) (l : list A) :
  (forall a, q a = true -> p a = true) ->
  existsb q (filter (fun a => negb (p a)) l) = false.
Proof.
  intros H. induction l as [|a l IH]; [reflexivity|].
  cbn [filter]. destruct (p a) eqn:E; cbn [negb]; [exact IH|].
  cbn [existsb]. rewrite IH, orb_false_r.
  destruct (q a) eqn:Eq; [|reflexivity].
  rewrite (H a Eq) in E. discriminate E.
Qed.

Lemma existsb_filter_keep {A : Type} (p q : A -> bool) (l : list A) :
  (forall a, q a = true -> p a = false) ->
  existsb q (filter (fun a => negb (p a)) l) = existsb q l.
Proof.
  intros H. induction l as [|a l IH]; [reflexivity|].
  cbn [filter existsb]. destruct (p a) eqn:E; cbn [negb].
  - rewrite IH. destruct (q a) eqn:Eq; [|reflexivity].
    rewrite (H a Eq) in E. discriminate E.
  - cbn [existsb]. rewrite IH. reflexivity.
Qed.

(** X15: after a revoke that goes through, the user passes the access
    policy exactly when being an admin: an expiry row no longer counts,
    an admin keeps access; the access of every other user is as before,
    and a revoke that fails changes no row. *)
Theorem revoke_access_effect
    (roles : list Access.role_row) (accesses : list Access.access_row)
    (uid : string) (now : Z) :
  let accesses' := fst (Admin.revokeAccess None uid accesses) in
  Access.has_valid_access roles accesses' now uid
  = Access.has_role roles uid Access.admin /\
  (forall v, v <> uid ->
     Access.has_valid_access roles accesses' now v
     = Access.has_valid_access roles accesses now v) /\
  (forall x, fst (Admin.revokeAccess (Some x) uid accesses) = accesses).
Proof.
  cbv zeta. cbn [Admin.revokeAccess fst]. split; [|split].
  - unfold Access.has_valid_access.
    rewrite (existsb_filter_neg
               (fun a => String.eqb (Access.access_user_id a) uid)).
    + reflexivity.
    + intros a H. apply andb_true_iff in H. tauto.
  - intros v Hv. unfold Access.has_valid_access. f_equal.
    apply (existsb_filter_keep
             (fun a => String.eqb (Access.access_user_id a) uid)).
    intros a H. apply andb_true_iff in H. destruct H as [H _].
    apply String.eqb_eq in H. apply String.eqb_neq. congruence.
  - reflexivity.
Qed.

Lemma role_eqb_eq (a b : Access.app_role) :
  Access.role_eqb a b = true <-> a = b.
Proof. destruct a, b; cbn; split; congruence. Qed.

(** X16: a toggle that goes through, called with the user's present admin
    status, flips [has_role(user, 'admin')], leaves the user's other
    roles and every other user's roles as they were, and a second toggle
    brings the admin status back; called with a stale status that says
    "no admin" for an admin, it is refused and changes no row. *)
Theorem toggle_admin_effect (roles : list Access.role_row) (uid : string) :
  let currentlyAdmin := Access.has_role roles uid Access.admin in
  let roles' := fst (Admin.toggleAdmin None uid currentlyAdmin roles) in
  Access.has_role roles' uid Access.admin = negb currentlyAdmin /\
  Access.has_role roles' uid Access.user
  = Access.has_role roles uid Access.user /\
  (forall v r, v <> uid ->
     Access.has_role roles' v r = Access.has_role roles v r) /\
  Access.has_role
    (fst (Admin.toggleAdmin None uid (negb currentlyAdmin) roles'))
    uid Access.admin = currentlyAdmin /\
  (currentlyAdmin = true ->
   Admin.toggleAdmin None uid false roles
   = (roles, toast_error "Erro ao alterar privilégios")).
Proof.
  cbv zeta.
  set (is_admin_row := fun r : Access.role_row =>
         String.eqb (Access.role_user_id r) uid
         && Access.role_eqb (Access.role r) Access.admin).
  assert (Removed : forall l,
            Access.has_role (filter (fun r => negb (is_admin_row r)) l)
                            uid Access.admin = false).
  { intros l. unfold Access.has_role.
    apply (existsb_filter_neg is_admin_row). intros a H. exact H. }
  assert (Added : forall l,
            Access.has_role
              (l ++ [ {| Access.role_user_id := uid;
                         Access.role := Access.admin |} ])%list
              uid Access.admin = true).
  { intros l. unfold Access.has_role. rewrite existsb_app. cbn.
    rewrite String.eqb_refl. apply orb_true_r. }
  destruct (Access.has_role roles uid Access.admin) eqn:E;
    cbn [Admin.toggleAdmin fst negb]; fold is_admin_row.
  - split; [apply Removed|]. split; [|split; [|split]].
    + unfold Access.has_role.
      apply (existsb_filter_keep is_admin_row). intros a H.
      apply andb_true_iff in H. destruct H as [_ H].
      apply role_eqb_eq in H. unfold is_admin_row. rewrite H.
      apply andb_false_r.
    + intros v r Hv. unfold Access.has_role.
      apply (existsb_filter_keep is_admin_row). intros a H.
      apply andb_true_iff in H. destruct H as [H _].
      apply String.eqb_eq in H. unfold is_admin_row.
      apply andb_false_iff. left. apply String.eqb_neq. congruence.
    + rewrite Removed. cbn [fst]. apply Added.
    + intros _. rewrite E. reflexivity.
  - rewrite E. cbn [fst]. split; [apply Added|]. split; [|split; [|split]].
    + unfold Access.has_role. rewrite existsb_app. cbn.
      rewrite andb_false_r, orb_false_r. reflexivity.
    + intros v r Hv. unfold Access.has_role. rewrite existsb_app. cbn.
      apply String.eqb_neq in Hv. rewrite String.eqb_sym, Hv.
      rewrite orb_false_r. reflexivity.
    + fold is_admin_row. apply Removed.
    + discriminate.
Qed.
